(** * The render-and-cache pipeline of [packages/next/server/base-server.ts]

    A shallow embedding of [Server.renderToResponseWithComponents],
    [Server.renderPageComponent], [Server.renderToResponse],
    [Server.renderErrorToResponse], [Server.renderError], [Server.render404],
    [Server.getStaticPaths], [Server.stripNextDataPath] and
    [prepareServerlessUrl].

    The mutable objects of one request ([res], [req.url], [query]) are threaded
    through a state-and-exception monad in which the state survives a [throw],
    as it does in JavaScript.  The abstract methods of the class and the
    imported helpers are collected in the class [Collaborators]. *)

From Stdlib Require Import ZArith Bool Ascii.
From stdpp Require Import gmap strings list pretty.

Local Open Scope Z_scope.
Local Open Scope string_scope.
Local Open Scope list_scope.

(** ** JavaScript values *)

(** [any]-typed data ([pageData], redirect props). *)
#[warnings="-register-all"]
Inductive JsValue :=
| JsUndefined
| JsNull
| JsBool (b : bool)
| JsNumber (n : Z)
| JsString (s : string)
| JsObject (fields : list (string * JsValue)).

Fixpoint assoc_get (k : string) (fields : list (string * JsValue)) : JsValue :=
  match fields with
  | [] => JsUndefined
  | (k', v) :: rest => if String.eqb k k' then v else assoc_get k rest
  end.

(** [v.k] (the code only reads properties of objects it knows exist). *)
Definition js_get (v : JsValue) (k : string) : JsValue :=
  match v with
  | JsObject fields => assoc_get k fields
  | _ => JsUndefined
  end.

(** Truthiness of a [string | undefined]: [undefined] and [''] are falsy. *)
Definition truthy (v : option string) : bool :=
  match v with
  | Some s => negb (String.eqb s "")
  | None => false
  end.

(** [v || d] on a [string | undefined]. *)
Definition or_else (v : option string) (d : string) : string :=
  if truthy v then default d v else d.

(** The error classes the pipeline throws or inspects with [instanceof].
    Errors raised by user code while rendering are plain [Error]s. *)
Inductive JsError :=
| Error (message : string)
| TypeError (message : string)
| NoFallbackError
| DecodeError (message : string)
| NormalizeError (message : string)
| MissingStaticPage (message : string)
| WrappedBuildError (innerError : JsError).

Definition isNoFallbackError (e : JsError) : bool :=
  match e with NoFallbackError => true | _ => false end.

Definition isDecodeOrNormalizeError (e : JsError) : bool :=
  match e with DecodeError _ | NormalizeError _ => true | _ => false end.

Definition isMissingStaticPage (e : JsError) : bool :=
  match e with MissingStaticPage _ => true | _ => false end.

Definition isWrappedBuildError (e : JsError) : bool :=
  match e with WrappedBuildError _ => true | _ => false end.

(** ** Requests, responses and the mutable state of one request *)

Record BaseNextRequest := {
  req_method : string;
  req_headers : gmap string string;
  (** [getRequestMeta(req, '_nextRewroteUrl')] *)
  req_nextRewroteUrl : option string;
}.

Record BaseNextResponse := {
  res_statusCode : Z;
  res_headers : gmap string (list string);
  res_sent : bool;
  res_body : option string;
}.

(** The objects a request mutates: [res], [req.url], the [query] object of
    the [RequestContext] and the [query] object that [findPageComponents]
    returns, which is the one [renderToResponseWithComponents] works on. *)
Record Mutable := {
  res : BaseNextResponse;
  url : string;
  ctx_query : gmap string string;
  query : gmap string string;
}.

(** Calls that leave the pipeline, in the order they happen.  The entry of
    the [doRender] closure is recorded too. *)
Inductive Call :=
| call_doRender
| call_renderHTML (pathname : string)
| call_renderReqToHTML
| call_getFallback (page : string)
| call_getStaticPaths (pathname : string)
| call_renderErrorPipe (statusCode : Z) (pathname : string)
| call_findPageComponents (pathname : string)
| call_logError (e : JsError).

Record State := {
  mut : Mutable;
  trace : list Call;
}.

Inductive outcome (A : Type) :=
| Ret (a : A)
| Throw (e : JsError).
Arguments Ret {A} a.
Arguments Throw {A} e.

Definition M (A : Type) : Type := State -> outcome A * State.

Definition ret {A} (a : A) : M A := fun s => (Ret a, s).

Definition throw {A} (e : JsError) : M A := fun s => (Throw e, s).

Definition bind {A B} (c : M A) (k : A -> M B) : M B :=
  fun s =>
    match c s with
    | (Ret a, s') => k a s'
    | (Throw e, s') => (Throw e, s')
    end.

(** [try { c } catch (e) { h e }] *)
Definition try_catch {A} (c : M A) (h : JsError -> M A) : M A :=
  fun s =>
    match c s with
    | (Ret a, s') => (Ret a, s')
    | (Throw e, s') => h e s'
    end.

Notation "'let*' x ':=' c 'in' k" := (bind c (fun x => k))
  (at level 10, x pattern, c at level 100, k at level 200).
Notation "c ';;' k" := (bind c (fun _ => k))
  (at level 100, k at level 200, right associativity).

Definition gets {A} (f : Mutable -> A) : M A := fun s => (Ret (f (mut s)), s).

Definition modify (f : Mutable -> Mutable) : M unit :=
  fun s => (Ret tt, {| mut := f (mut s); trace := trace s |}).

Definition record (c : Call) : M unit :=
  fun s => (Ret tt, {| mut := mut s; trace := trace s ++ [c] |}).

(** A call to a collaborator: it sees and may change [res], [req.url] and
    [query], and the call is appended to the trace. *)
Definition extern {A} (c : Call) (f : Mutable -> outcome A * Mutable) : M A :=
  fun s =>
    let '(o, m) := f (mut s) in
    (o, {| mut := m; trace := trace s ++ [c] |}).

Definition with_res (f : BaseNextResponse -> BaseNextResponse) (m : Mutable) : Mutable :=
  {| res := f (res m); url := url m; ctx_query := ctx_query m; query := query m |}.

Definition with_query (f : gmap string string -> gmap string string) (m : Mutable) : Mutable :=
  {| res := res m; url := url m; ctx_query := ctx_query m; query := f (query m) |}.

Definition with_ctx_query (f : gmap string string -> gmap string string) (m : Mutable) : Mutable :=
  {| res := res m; url := url m; ctx_query := f (ctx_query m); query := query m |}.

Definition with_url (f : string -> string) (m : Mutable) : Mutable :=
  {| res := res m; url := f (url m); ctx_query := ctx_query m; query := query m |}.

(** [res.statusCode = code] *)
Definition set_statusCode (code : Z) : M unit :=
  modify (with_res (fun r =>
    {| res_statusCode := code; res_headers := res_headers r;
       res_sent := res_sent r; res_body := res_body r |})).

(** [res.setHeader(name, value)] *)
Definition setHeader (name : string) (value : list string) : M unit :=
  modify (with_res (fun r =>
    {| res_statusCode := res_statusCode r; res_headers := <[name := value]> (res_headers r);
       res_sent := res_sent r; res_body := res_body r |})).

(** [res.body(b).send()] *)
Definition send_body (b : string) : M unit :=
  modify (with_res (fun r =>
    {| res_statusCode := res_statusCode r; res_headers := res_headers r;
       res_sent := true; res_body := Some b |})).

(** [query[k] = v] and [delete query[k]] *)
Definition set_query (k v : string) : M unit := modify (with_query (insert k v)).
Definition delete_query (k : string) : M unit := modify (with_query (delete k)).

(** ** Cache entries *)

(** [RenderResult] wraps a static string or a stream of chunks. *)
Inductive RenderResult :=
| fromStatic (value : string)
| fromStream (chunks : list string).

(** [revalidate?: number | false] *)
Inductive Revalidate :=
| rev_undefined
| rev_false
| rev_seconds (n : Z).

Inductive ResponseCacheValue :=
| PAGE (html : RenderResult) (pageData : JsValue)
| REDIRECT (props : JsValue)
| IMAGE (etag extension : string).

(** [value: null] stands for a page that was not found; [isStale] and
    [isMiss] are set by the store. *)
Record ResponseCacheEntry := {
  revalidate : Revalidate;
  value : option ResponseCacheValue;
  isStale : bool;
  isMiss : bool;
}.

Definition mkEntry (r : Revalidate) (v : option ResponseCacheValue) : ResponseCacheEntry :=
  {| revalidate := r; value := v; isStale := false; isMiss := false |}.

(** [{ ...result, revalidate: r }] *)
Definition with_revalidate (r : Revalidate) (e : ResponseCacheEntry) : ResponseCacheEntry :=
  {| revalidate := r; value := value e; isStale := isStale e; isMiss := isMiss e |}.

Record RevalidateOptions := {
  ro_private : bool;
  ro_stateful : bool;
  ro_revalidate : Revalidate;
}.

Inductive PayloadType := html_type | json_type.

Record ResponsePayload := {
  type : PayloadType;
  body : RenderResult;
  revalidateOptions : option RevalidateOptions;
}.

(** ** Static configuration of the server *)

Inductive FallbackMode := fm_static | fm_blocking | fm_false.

Definition FallbackMode_eqb (a b : FallbackMode) : bool :=
  match a, b with
  | fm_static, fm_static | fm_blocking, fm_blocking | fm_false, fm_false => true
  | _, _ => false
  end.

(** The [fallback] field of a dynamic route in the prerender manifest:
    [string | null | false]. *)
Inductive FallbackField :=
| fallback_string (file : string)
| fallback_null
| fallback_false.

Record I18n := {
  locales : list string;
  defaultLocale : string;
}.

Record RoutingItem := {
  page : string;
  route_match : string -> option (gmap string string);
}.

(** What [parseUrl] returns, as far as the pipeline looks into it. *)
Record UrlObject := {
  url_pathname : option string;
  url_query : gmap string string;
  url_rest : string;
}.

(** What a renderer hands back: the markup and the fields it leaves on
    [renderOpts]. *)
Record RenderOutput := {
  out_html : option RenderResult;
  out_pageData : JsValue;
  out_revalidate : Revalidate;
  out_isNotFound : bool;
  out_isRedirect : bool;
}.

(** The [renderOpts] handed to [renderHTML] by [doRender]. *)
Record RenderOpts := {
  opt_isDataReq : bool;
  opt_resolvedUrl : string;
  opt_resolvedAsPath : string;
  opt_locale : option string;
  opt_defaultLocale : option string;
  opt_supportsDynamicHTML : bool;
}.

Inductive ComponentType :=
| StaticPage (html : string)
| PageComponent (getInitialProps : bool).

(** [LoadComponentsReturnType], as far as the pipeline looks into it. *)
Record LoadComponentsReturnType := {
  Component : ComponentType;
  ComponentMod_renderReqToHTML : bool;
  ComponentMod_next_rsc : bool;
  getServerSideProps : bool;
  getStaticProps : bool;
  getStaticPaths_defined : bool;
  Document_getInitialProps : bool;
  Document_builtin : bool;
}.

Record FindComponentsResult := {
  components : LoadComponentsReturnType;
  found_query : gmap string string;
}.

(** A subclass may override [getStaticPaths]. *)
Definition StaticPathsResult : Type := option (list string) * FallbackMode.

Record Server := {
  minimalMode : bool;
  dev : bool;
  buildId : string;
  i18n : option I18n;
  basePath : string;
  trailingSlash : bool;
  NEXT_RUNTIME_edge : bool;
  NEXT_REACT_ROOT : bool;
  serverComponentManifest : bool;
  webServerConfig : option string;
  prerenderManifest_dynamicRoutes : gmap string FallbackField;
  getStaticPaths_override : option (string -> Mutable -> outcome StaticPathsResult * Mutable);
  dynamicRoutes : option (list RoutingItem);
  catchAllMiddleware : bool;
  appDir : bool;
  (** the parallel routes of an app path: the first one and the others *)
  appPathRoutes : gmap string (string * list string);
}.

(** ** Collaborators

    The abstract methods of [Server], the helpers it imports and the
    built-ins it calls.  [renderErrorPipe] is the error-page pipeline
    [this.pipe((ctx) => this.renderErrorToResponse(ctx, err), ...)] entered by
    [renderError]: it renders and sends another page, so it is kept behind
    this interface. *)
Class Collaborators := {
  isBot : string -> bool;
  isDynamicRoute : string -> bool;
  parseUrl : string -> UrlObject;
  formatUrl : UrlObject -> string;
  removeTrailingSlash : string -> string;
  normalizeLocalePath : string -> option (list string) -> string;
  denormalizePagePath : string -> string;
  decodeURIComponent : string -> option string;
  escapePathDelimiters : string -> bool -> string;
  JSON_stringify : JsValue -> string;
  getRedirectStatus : JsValue -> Z;
  normalizeRepeatedSlashes : string -> string;
  res_redirect : string -> Z -> BaseNextResponse -> BaseNextResponse;
  setRevalidateHeaders : RevalidateOptions -> BaseNextResponse -> BaseNextResponse;
  (** [false] is [None]; the cookies it may clear on [res] are left out *)
  tryGetPreviewData : BaseNextRequest -> option JsValue;
  (** [(isManualRevalidate, revalidateOnlyGenerated)] *)
  checkIsManualRevalidate : BaseNextRequest -> bool * bool;
  getFallback : string -> outcome string;
  renderHTML : BaseNextRequest -> string -> RenderOpts -> Mutable -> outcome RenderOutput * Mutable;
  renderReqToHTML : BaseNextRequest -> Mutable -> outcome RenderOutput * Mutable;
  (** the [query] argument is [None] when it is the request's own object *)
  renderErrorPipe :
    option JsError -> string -> option (gmap string string) -> Mutable -> outcome unit * Mutable;
  (** [findPageComponents({ pathname, query, params, ... })] *)
  findPageComponents :
    string -> gmap string string -> gmap string string -> outcome (option FindComponentsResult);
  hasPage : string -> bool;
  STATIC_STATUS_PAGES : list string;
  parseInt : string -> Z;
  getFallbackErrorComponents : option LoadComponentsReturnType;
  (** [responseCache.get(key, responseGenerator, { isManualRevalidate, isPrefetch })] *)
  responseCache_get :
    option string -> (bool -> bool -> M (option ResponseCacheEntry)) -> bool -> bool ->
    M (option ResponseCacheEntry);
}.

(** ** String helpers *)

Fixpoint ends_with (suffix s : string) : bool :=
  String.eqb suffix s ||
  match s with
  | EmptyString => false
  | String _ rest => ends_with suffix rest
  end.

(** [s.replace(/<suffix>$/, '')] for a literal suffix *)
Definition strip_suffix (suffix s : string) : string :=
  if ends_with suffix s
  then String.substring 0 (String.length s - String.length suffix) s
  else s.

Fixpoint split_on (sep : Ascii.ascii) (s : string) : list string :=
  match s with
  | EmptyString => [""]
  | String c rest =>
      if Ascii.eqb c sep then "" :: split_on sep rest
      else match split_on sep rest with
           | [] => [String c EmptyString]
           | seg :: segs => String c seg :: segs
           end
  end.

Fixpoint join_with (sep : string) (l : list string) : string :=
  match l with
  | [] => ""
  | [x] => x
  | x :: rest => x +:+ sep +:+ join_with sep rest
  end.

(** [l.map(f)] where [f] may throw: the first failure aborts. *)
Fixpoint map_opt {A B} (f : A -> option B) (l : list A) : option (list B) :=
  match l with
  | [] => Some []
  | x :: rest =>
      match f x with
      | None => None
      | Some y => match map_opt f rest with
                  | None => None
                  | Some ys => Some (y :: ys)
                  end
      end
  end.

Definition str_includes (needle s : string) : bool :=
  match String.index 0 needle s with Some _ => true | None => false end.

Definition list_includes (x : string) (l : list string) : bool :=
  existsb (String.eqb x) l.

(** ** The closure environment of [renderToResponseWithComponents]

    [doRender] and the response generator are closures over the constants
    computed before them; the fields carry the names of those constants. *)
Record Scope := {
  req : BaseNextRequest;
  pathname : string;
  params : option (gmap string string);
  supportsDynamicHTML : bool;
  isLikeServerless : bool;
  hasServerProps : bool;
  hasStaticPaths : bool;
  hasGetInitialProps : bool;
  isSSG : bool;
  isDataReq : bool;
  isFlightRequest : bool;
  locale : option string;
  defaultLocale_ : option string;
  isPreviewMode : bool;
  isManualRevalidate : bool;
  revalidateOnlyGenerated : bool;
  urlPathname : string;
  resolvedUrlPathname : string;
  ssgCacheKey : option string;
}.

Definition header (rq : BaseNextRequest) (name : string) : option string :=
  req_headers rq !! name.

Section Pipeline.
Context `{C : Collaborators}.
Variable this : Server.

(** lines 916-937 *)
Definition getStaticPaths (pathname : string) : M StaticPathsResult :=
  match getStaticPaths_override this with
  | Some f => extern (call_getStaticPaths pathname) (f pathname)
  | None =>
      match prerenderManifest_dynamicRoutes this !! pathname with
      | None => throw (TypeError "Cannot read properties of undefined (reading 'fallback')")
      | Some fallbackField =>
          ret (None,
               match fallbackField with
               | fallback_string _ => fm_static
               | fallback_null => fm_blocking
               | fallback_false => fm_false
               end)
      end
  end.

(** lines 167-180 *)
Definition prepareServerlessUrl : M unit :=
  modify (fun m =>
    let curUrl := parseUrl (url m) in
    with_url (fun _ =>
      formatUrl {| url_pathname := url_pathname curUrl;
                   url_query := query m ∪ url_query curUrl;
                   url_rest := url_rest curUrl |}) m).

(** lines 1709-1734 *)
Definition renderError (err : option JsError) (pathname : string)
    (query : option (gmap string string)) (setHeaders : bool) : M unit :=
  (if setHeaders
   then setHeader "Cache-Control" ["no-cache, no-store, max-age=0, must-revalidate"]
   else ret tt) ;;
  let* code := gets (fun m => res_statusCode (res m)) in
  extern (call_renderErrorPipe code pathname) (renderErrorPipe err pathname query).

Definition i18n_defaults (i : I18n) (q : gmap string string) : gmap string string :=
  let q1 := <["__nextLocale" := or_else (q !! "__nextLocale") (defaultLocale i)]> q in
  <["__nextDefaultLocale" := or_else (q1 !! "__nextDefaultLocale") (defaultLocale i)]> q1.

(** lines 1875-1894.  [parsedUrl] is [Some pathname] when the caller passes
    its own pathname and [query] object, [None] when the url is parsed anew. *)
Definition render404 (parsedUrl : option string) (setHeaders : bool) : M unit :=
  match parsedUrl with
  | Some pathname =>
      match i18n this with
      | Some i => modify (with_query (i18n_defaults i))
      | None => ret tt
      end ;;
      set_statusCode 404 ;;
      renderError None pathname None setHeaders
  | None =>
      let* u := gets (fun m => parseUrl (url m)) in
      let query :=
        match i18n this with
        | Some i => i18n_defaults i (url_query u)
        | None => url_query u
        end in
      set_statusCode 404 ;;
      renderError None (default "" (url_pathname u)) (Some query) setHeaders
  end.

Section Closures.
Variable sc : Scope.

(** lines 1182-1278 *)
Definition doRender : M (option ResponseCacheEntry) :=
  record call_doRender ;;
  let* out :=
    if isLikeServerless sc
    then extern call_renderReqToHTML (renderReqToHTML (req sc))
    else
      let* origQuery := gets (fun m => url_query (parseUrl (url m))) in
      let origQuery :=
        match params sc with
        | Some ps => origQuery ∖ ps
        | None => origQuery
        end in
      let hadTrailingSlash :=
        negb (String.eqb (urlPathname sc) "/") && trailingSlash this in
      let resolvedUrl :=
        formatUrl {| url_pathname :=
                       Some (resolvedUrlPathname sc +:+ (if hadTrailingSlash then "/" else ""));
                     url_query := origQuery; url_rest := "" |} in
      let renderOpts :=
        {| opt_isDataReq := isDataReq sc;
           opt_resolvedUrl := resolvedUrl;
           opt_resolvedAsPath :=
             if hasServerProps sc || hasGetInitialProps sc
             then formatUrl {| url_pathname :=
                                 Some (urlPathname sc +:+ (if hadTrailingSlash then "/" else ""));
                               url_query := origQuery; url_rest := "" |}
             else resolvedUrl;
           opt_locale := locale sc;
           opt_defaultLocale := defaultLocale_ sc;
           opt_supportsDynamicHTML := supportsDynamicHTML sc |} in
      extern (call_renderHTML (pathname sc)) (renderHTML (req sc) (pathname sc) renderOpts)
  in
  if out_isNotFound out then ret (Some (mkEntry (out_revalidate out) None))
  else if out_isRedirect out
  then ret (Some (mkEntry (out_revalidate out) (Some (REDIRECT (out_pageData out)))))
  else
    match out_html out with
    | None => ret None
    | Some body =>
        ret (Some (mkEntry (out_revalidate out) (Some (PAGE body (out_pageData out)))))
    end.

(** lines 1287-1296: the declared fallback mode, escalated for crawlers *)
Definition resolveFallback : M StaticPathsResult :=
  let* (staticPaths, fallbackMode) :=
    if hasStaticPaths sc then getStaticPaths (pathname sc) else ret (None, fm_false) in
  ret (staticPaths,
       if FallbackMode_eqb fallbackMode fm_static
          && isBot (or_else (header (req sc) "user-agent") "")
       then fm_blocking else fallbackMode).

(** lines 1300-1305 *)
Definition skipManualRevalidate (hadCache : bool) : bool :=
  isManualRevalidate sc && revalidateOnlyGenerated sc && negb hadCache
  && negb (minimalMode this).

(** lines 1312-1314 *)
Definition manualRevalidateFallback (hadCache : bool) (fallbackMode : FallbackMode) : FallbackMode :=
  if isManualRevalidate sc && (negb (FallbackMode_eqb fallbackMode fm_false) || hadCache)
  then fm_blocking else fallbackMode.

(** lines 1331-1347: may a skeleton (or no page at all) answer this miss? *)
Definition fallbackGuard (didRespond : bool) (staticPaths : option (list string))
    (fallbackMode : FallbackMode) (amp : option string) : bool :=
  negb (minimalMode this)
  && negb (FallbackMode_eqb fallbackMode fm_blocking)
  && truthy (ssgCacheKey sc)
  && negb didRespond
  && negb (isPreviewMode sc)
  && isDynamicRoute (pathname sc)
  && (negb (dev this)
      || match staticPaths with
         | None => true
         | Some paths =>
             negb (list_includes
                     (if truthy amp then strip_suffix ".amp" (default "" (ssgCacheKey sc))
                      else default "" (ssgCacheKey sc))
                     paths)
         end).

(** lines 1348-1354 *)
Definition noFallback (staticPaths : option (list string)) (fallbackMode : FallbackMode) : bool :=
  (negb (dev this) || bool_decide (is_Some staticPaths))
  && negb (FallbackMode_eqb fallbackMode fm_static).

(** lines 1389-1399 *)
Definition renderAndPersist : M (option ResponseCacheEntry) :=
  let* result := doRender in
  match result with
  | None => ret None
  | Some result =>
      ret (Some (with_revalidate
                   (match revalidate result with
                    | rev_undefined => rev_seconds 1
                    | r => r
                    end) result))
  end.

(** lines 1374-1377 *)
Definition requestFallback : M unit :=
  set_query "__nextFallback" "true" ;;
  (if isLikeServerless sc then prepareServerlessUrl else ret tt).

(** line 1362 *)
Definition fallbackPage : string :=
  if truthy (locale sc)
  then "/" +:+ default "" (locale sc) +:+ pathname sc
  else pathname sc.

(** lines 1282-1400: the generator handed to [responseCache.get] *)
Definition responseGenerator (hasResolved hadCache : bool) : M (option ResponseCacheEntry) :=
  let isProduction := negb (dev this) in
  let* sent := gets (fun m => res_sent (res m)) in
  let didRespond := hasResolved || sent in
  let* (staticPaths, fallbackMode) := resolveFallback in
  if skipManualRevalidate hadCache
  then render404 None true ;; ret None
  else
    let fallbackMode := manualRevalidateFallback hadCache fallbackMode in
    let* amp := gets (fun m => query m !! "amp") in
    if fallbackGuard didRespond staticPaths fallbackMode amp
    then
      if noFallback staticPaths fallbackMode
      then throw NoFallbackError
      else if negb (isDataReq sc)
      then
        if isProduction
        then
          let* html :=
            extern (call_getFallback fallbackPage) (fun m => (getFallback fallbackPage, m)) in
          ret (Some (mkEntry rev_undefined (Some (PAGE (fromStatic html) (JsObject [])))))
        else
          requestFallback ;;
          let* result := doRender in
          match result with
          | None => ret None
          | Some result => ret (Some (with_revalidate rev_undefined result))
          end
      else renderAndPersist
    else renderAndPersist.

(** The branch the generator takes, from the conditions of lines 1300-1358:
    the 404 of a skipped manual revalidation, [NoFallbackError], the skeleton,
    or the full render of lines 1389-1399. *)
Inductive Branch := br_notFound | br_noFallback | br_skeleton | br_render.

Definition branch (hasResolved hadCache sent : bool) (staticPaths : option (list string))
    (fallbackMode : FallbackMode) (amp : option string) : Branch :=
  if skipManualRevalidate hadCache then br_notFound
  else
    let fallbackMode := manualRevalidateFallback hadCache fallbackMode in
    if fallbackGuard (hasResolved || sent) staticPaths fallbackMode amp
    then
      if noFallback staticPaths fallbackMode then br_noFallback
      else if negb (isDataReq sc) then br_skeleton else br_render
    else br_render.

End Closures.

(** ** [renderToResponseWithComponents] *)

Definition when (b : bool) (c : M unit) : M unit := if b then c else ret tt.

(** lines 1501-1515, with [stripLocale] at its default *)
Definition stripNextDataPath (path : string) : string :=
  let path :=
    match String.index 0 (buildId this) path with
    | Some i =>
        let start := (i + String.length (buildId this))%nat in
        let splitPath := String.substring start (String.length path - start) path in
        denormalizePagePath (strip_suffix ".json" splitPath)
    | None => path
    end in
  match i18n this with
  | Some i => normalizeLocalePath path (Some (locales i))
  | None => path
  end.

Definition isStaticPage (c : LoadComponentsReturnType) : bool :=
  match Component c with StaticPage _ => true | PageComponent _ => false end.

Definition hasGetInitialProps_of (c : LoadComponentsReturnType) : bool :=
  match Component c with StaticPage _ => false | PageComponent g => g end.

(** lines 953-960 *)
Definition isSSG_of (c : LoadComponentsReturnType) : bool :=
  getStaticProps c
  || (ComponentMod_next_rsc c && negb (getServerSideProps c)
      && negb (hasGetInitialProps_of c) && negb (NEXT_RUNTIME_edge this)).

(** lines 1014-1021 *)
Definition methodNotAllowed (pathname method : string) (c : LoadComponentsReturnType) : bool :=
  negb (String.eqb pathname "/404")
  && negb (String.eqb pathname "/500")
  && negb (String.eqb pathname "/_error")
  && negb (String.eqb method "HEAD")
  && negb (String.eqb method "GET")
  && (isStaticPage c || isSSG_of c).

Definition localePrefix (locale : option string) : string :=
  if truthy locale then "/" +:+ default "" locale else "".

Definition ampSuffix (amp : option string) : string :=
  if truthy amp then ".amp" else "".

(** lines 1141-1154 *)
Definition deriveCacheKey (pathname : string)
    (isSSG isPreviewMode supportsDynamicHTML isFlightRequest : bool)
    (locale amp : option string) (resolvedUrlPathname : string) : option string :=
  let ssgCacheKey :=
    if isPreviewMode || negb isSSG || supportsDynamicHTML || isFlightRequest
    then None
    else Some (localePrefix locale
               +:+ (if (String.eqb pathname "/" || String.eqb resolvedUrlPathname "/")
                       && truthy locale
                    then "" else resolvedUrlPathname)
               +:+ ampSuffix amp) in
  if (String.eqb pathname "/404" || String.eqb pathname "/500") && isSSG
  then Some (localePrefix locale +:+ pathname +:+ ampSuffix amp)
  else ssgCacheKey.

(** lines 1156-1180 *)
Definition normalizeCacheKey (pathname : string) (ssgCacheKey : option string) :
    outcome (option string) :=
  if truthy ssgCacheKey
  then
    match map_opt (fun seg => (fun d => escapePathDelimiters d true) <$> decodeURIComponent seg)
                  (split_on "/"%char (default "" ssgCacheKey)) with
    | None => Throw (DecodeError "failed to decode param")
    | Some segs =>
        let key := join_with "/" segs in
        Ret (Some (if String.eqb key "/index" && String.eqb pathname "/" then "/" else key))
    end
  else Ret ssgCacheKey.

Definition lift_outcome {A} (o : outcome A) : M A := fun s => (o, s).

Record RequestContext := {
  ctx_req : BaseNextRequest;
  ctx_pathname : string;
  ctx_supportsDynamicHTML : bool;
  ctx_params : option (gmap string string);
  ctx_err : option JsError;
}.

(** lines 1041-1180: the constants the closures capture, from what was read
    off the request: [query.__nextLocale], [query.__nextDefaultLocale],
    [query.amp] and [req.url].  [DecodeError] is thrown here. *)
Definition scopeOf (ctx : RequestContext) (components : LoadComponentsReturnType)
    (isDataReq isFlightRequest : bool)
    (nextLocale nextDefaultLocale amp : option string) (u : string) : outcome Scope :=
  let req := ctx_req ctx in
  let pathname := ctx_pathname ctx in
  let isLikeServerless := ComponentMod_renderReqToHTML components in
  let hasServerProps := getServerSideProps components in
  let hasStaticPaths := getStaticPaths_defined components in
  let hasGetInitialProps := hasGetInitialProps_of components in
  let isSSG := isSSG_of components in
  let supportsDynamicHTML :=
    if ctx_supportsDynamicHTML ctx
    then
      let isBotRequest := isBot (or_else (header req "user-agent") "") in
      let isSupportedDocument :=
        negb (Document_getInitialProps components)
        || (NEXT_REACT_ROOT this && Document_builtin components) in
      negb isSSG && negb isLikeServerless && negb isBotRequest
      && negb (truthy amp) && isSupportedDocument
    else false in
  let defaultLocale :=
    if isSSG then defaultLocale <$> i18n this else nextDefaultLocale in
  let locale := nextLocale in
  let isPreviewMode :=
    (hasServerProps || isSSG) && negb (NEXT_RUNTIME_edge this)
    && bool_decide (is_Some (tryGetPreviewData req)) in
  let '(isManualRevalidate, revalidateOnlyGenerated) :=
    if isSSG then checkIsManualRevalidate req else (false, false) in
  let urlPathname := or_else (url_pathname (parseUrl u)) "/" in
  let resolvedUrlPathname := or_else (req_nextRewroteUrl req) urlPathname in
  let resolvedUrlPathname :=
    if isSSG && minimalMode this && truthy (header req "x-matched-path")
    then urlPathname else resolvedUrlPathname in
  let urlPathname := removeTrailingSlash urlPathname in
  let resolvedUrlPathname :=
    normalizeLocalePath (removeTrailingSlash resolvedUrlPathname)
                        (locales <$> i18n this) in
  let resolvedUrlPathname :=
    if isDataReq then stripNextDataPath resolvedUrlPathname else resolvedUrlPathname in
  let urlPathname :=
    if isDataReq then stripNextDataPath urlPathname else urlPathname in
  match normalizeCacheKey pathname
          (deriveCacheKey pathname isSSG isPreviewMode supportsDynamicHTML
                          isFlightRequest locale amp resolvedUrlPathname) with
  | Throw e => Throw e
  | Ret ssgCacheKey =>
      Ret {| req := req; pathname := pathname; params := ctx_params ctx;
             supportsDynamicHTML := supportsDynamicHTML;
             isLikeServerless := isLikeServerless;
             hasServerProps := hasServerProps;
             hasStaticPaths := hasStaticPaths;
             hasGetInitialProps := hasGetInitialProps;
             isSSG := isSSG; isDataReq := isDataReq;
             isFlightRequest := isFlightRequest;
             locale := locale; defaultLocale_ := defaultLocale;
             isPreviewMode := isPreviewMode;
             isManualRevalidate := isManualRevalidate;
             revalidateOnlyGenerated := revalidateOnlyGenerated;
             urlPathname := urlPathname;
             resolvedUrlPathname := resolvedUrlPathname;
             ssgCacheKey := ssgCacheKey |}
  end.

(** lines 943-1180: everything before [doRender]; an early [return] is [inl] *)
Definition prepare (ctx : RequestContext) (result : FindComponentsResult) :
    M (option ResponsePayload + Scope) :=
  let req := ctx_req ctx in
  let pathname := ctx_pathname ctx in
  let components := components result in
  modify (with_query (fun _ => found_query result)) ;;
  let is404Page := String.eqb pathname "/404" in
  let hasServerProps := getServerSideProps components in
  let isServerComponent := ComponentMod_next_rsc components in
  let isSSG := isSSG_of components in
  let* nextDataReq := gets (fun m => query m !! "__nextDataReq") in
  let isDataReq :=
    (truthy nextDataReq
     || (truthy (header req "x-nextjs-data") && bool_decide (is_Some (webServerConfig this))))
    && (isSSG || hasServerProps || isServerComponent) in
  delete_query "__nextDataReq" ;;
  let* u := gets url in
  when (isSSG && minimalMode this && truthy (header req "x-matched-path")
        && String.prefix "/_next/data" u)
       (modify (with_url stripNextDataPath)) ;;
  let* code := gets (fun m => res_statusCode (res m)) in
  let* nextLocale := gets (fun m => query m !! "__nextLocale") in
  when (negb isServerComponent && truthy (header req "x-nextjs-data")
        && (Z.eqb code 0 || Z.eqb code 200))
       (setHeader "x-nextjs-matched-path" [localePrefix nextLocale +:+ pathname]) ;;
  let* flight := gets (fun m => query m !! "__flight__") in
  let isFlightRequest := serverComponentManifest this && truthy flight in
  when (is404Page && negb isDataReq && negb isFlightRequest) (set_statusCode 404) ;;
  when (list_includes pathname STATIC_STATUS_PAGES)
       (set_statusCode (parseInt (String.substring 1 (String.length pathname - 1) pathname))) ;;
  if methodNotAllowed pathname (req_method req) components
  then
    set_statusCode 405 ;;
    setHeader "Allow" ["GET"; "HEAD"] ;;
    renderError None pathname (Some ∅) true ;;
    ret (inl None)
  else
    match Component components with
    | StaticPage html =>
        ret (inl (Some {| type := html_type; body := fromStatic html;
                          revalidateOptions := None |}))
    | PageComponent _ =>
        let* amp := gets (fun m => query m !! "amp") in
        when (negb (truthy amp)) (delete_query "amp") ;;
        let* nextDefaultLocale := gets (fun m => query m !! "__nextDefaultLocale") in
        let* u := gets url in
        let* sc :=
          lift_outcome (scopeOf ctx components isDataReq isFlightRequest
                                nextLocale nextDefaultLocale amp u) in
        ret (inr sc)
    end.

(** the body ['{"notFound":true}'] *)
Definition notFound_body : string :=
  let quote := String (Ascii.ascii_of_nat 34) EmptyString in
  "{" +:+ quote +:+ "notFound" +:+ quote +:+ ":true}".

Definition invariant_no_cache_entry : JsError :=
  Error "invariant: cache entry required but not generated".

Definition invariant_image : JsError :=
  Error "invariant SSG should not return an image cache value".

(** lines 1107-1132 *)
Definition handleRedirect (pageData : JsValue) : M unit :=
  let pageProps := js_get pageData "pageProps" in
  match js_get pageProps "__N_REDIRECT" with
  | JsString destination =>
      let statusCode := getRedirectStatus (js_get pageProps "__N_REDIRECT_STATUS") in
      let redirect_basePath_false :=
        match js_get pageProps "__N_REDIRECT_BASE_PATH" with
        | JsBool false => true
        | _ => false
        end in
      let destination :=
        if negb (String.eqb (basePath this) "") && negb redirect_basePath_false
           && String.prefix "/" destination
        then basePath this +:+ destination else destination in
      let destination :=
        if String.prefix "/" destination
        then normalizeRepeatedSlashes destination else destination in
      modify (with_res (res_redirect destination statusCode)) ;;
      send_body destination
  | _ => throw (TypeError "Cannot read properties of undefined (reading 'startsWith')")
  end.

(** lines 1407-1498: what is done with the entry the store handed back *)
Definition serveCacheEntry (sc : Scope) (cacheEntry : option ResponseCacheEntry) :
    M (option ResponsePayload) :=
  match cacheEntry with
  | None =>
      if truthy (ssgCacheKey sc) && negb (isManualRevalidate sc && revalidateOnlyGenerated sc)
      then throw invariant_no_cache_entry
      else ret None
  | Some cacheEntry =>
      when (isSSG sc && negb (minimalMode this))
           (setHeader "x-nextjs-cache"
              [if isManualRevalidate sc then "REVALIDATED"
               else if isMiss cacheEntry then "MISS"
               else if isStale cacheEntry then "STALE"
               else "HIT"]) ;;
      let cachedData := value cacheEntry in
      let revalidateOptions :=
        match revalidate cacheEntry with
        | rev_undefined => None
        | r =>
            if negb (dev this) || (hasServerProps sc && negb (isDataReq sc))
            then Some {| ro_private :=
                           isPreviewMode sc
                           || (String.eqb (pathname sc) "/404"
                               && bool_decide (is_Some cachedData));
                         ro_stateful := negb (isSSG sc);
                         ro_revalidate := r |}
            else None
        end in
      let applyRevalidateHeaders :=
        match revalidateOptions with
        | Some o => modify (with_res (setRevalidateHeaders o))
        | None => ret tt
        end in
      match cachedData with
      | None =>
          applyRevalidateHeaders ;;
          if isDataReq sc
          then
            set_statusCode 404 ;;
            send_body notFound_body ;;
            ret None
          else
            when (dev this) (set_query "__nextNotFoundSrcPage" (pathname sc)) ;;
            render404 (Some (pathname sc)) false ;;
            ret None
      | Some (REDIRECT props) =>
          applyRevalidateHeaders ;;
          if isDataReq sc
          then ret (Some {| type := json_type; body := fromStatic (JSON_stringify props);
                            revalidateOptions := revalidateOptions |})
          else handleRedirect props ;; ret None
      | Some (IMAGE _ _) => throw invariant_image
      | Some (PAGE html pageData) =>
          ret (Some {| type := if isDataReq sc then json_type else html_type;
                       body := if isDataReq sc then fromStatic (JSON_stringify pageData)
                               else html;
                       revalidateOptions := revalidateOptions |})
      end
  end.

(** lines 939-1499 *)
Definition renderToResponseWithComponents (ctx : RequestContext)
    (result : FindComponentsResult) : M (option ResponsePayload) :=
  let* r := prepare ctx result in
  match r with
  | inl early => ret early
  | inr sc =>
      let* cacheEntry :=
        responseCache_get (ssgCacheKey sc) (responseGenerator sc)
          (isManualRevalidate sc)
          (bool_decide (header (req sc) "purpose" = Some "prefetch")) in
      serveCacheEntry sc cacheEntry
  end.

(** ** The dispatcher *)

Definition with_pathname (pathname : string) (ctx : RequestContext) : RequestContext :=
  {| ctx_req := ctx_req ctx; ctx_pathname := pathname;
     ctx_supportsDynamicHTML := ctx_supportsDynamicHTML ctx;
     ctx_params := ctx_params ctx; ctx_err := ctx_err ctx |}.

Definition with_params (params : gmap string string) (ctx : RequestContext) : RequestContext :=
  {| ctx_req := ctx_req ctx; ctx_pathname := ctx_pathname ctx;
     ctx_supportsDynamicHTML := ctx_supportsDynamicHTML ctx;
     ctx_params := Some params; ctx_err := ctx_err ctx |}.

Definition with_err (err : option JsError) (ctx : RequestContext) : RequestContext :=
  {| ctx_req := ctx_req ctx; ctx_pathname := ctx_pathname ctx;
     ctx_supportsDynamicHTML := ctx_supportsDynamicHTML ctx;
     ctx_params := ctx_params ctx; ctx_err := err |}.

(** lines 1518-1529 *)
Definition getOriginalAppPaths (route : string) : option (string * list string) :=
  if appDir this then appPathRoutes this !! route else None.

Definition findPage (pathname : string) (params : gmap string string) :
    M (option FindComponentsResult) :=
  extern (call_findPageComponents pathname)
         (fun m => (findPageComponents pathname (ctx_query m) params, m)).

(** lines 1539-1543: the page whose components are loaded *)
Definition componentPage (pathname : string) : string :=
  match getOriginalAppPaths pathname with
  | Some (first, _) => first
  | None => pathname
  end.

(** lines 1531-1565; the result [false] is [None] *)
Definition renderPageComponent (ctx : RequestContext) (bubbleNoFallback : bool) :
    M (option (option ResponsePayload)) :=
  let* result := findPage (componentPage (ctx_pathname ctx)) (default ∅ (ctx_params ctx)) in
  match result with
  | Some result =>
      try_catch
        (let* r := renderToResponseWithComponents ctx result in ret (Some r))
        (fun err =>
           if negb (isNoFallbackError err) || (isNoFallbackError err && bubbleNoFallback)
           then throw err
           else ret None)
  | None => ret None
  end.

(** [c] is run on the [query] object of the context itself: what it does to
    [query] is done to [ctx.query]. *)
Definition on_ctx_query {A} (c : gmap string string -> M A) : M A :=
  fun s =>
    let '(o, s') := c (ctx_query (mut s)) s in
    (o, {| mut := with_ctx_query (fun _ => query (mut s')) (mut s'); trace := trace s' |}).

(** lines 1742-1853; the warning of lines 1792-1799 only logs *)
Definition renderErrorToResponse (ctx : RequestContext) (err : option JsError) :
    M (option ResponsePayload) :=
  try_catch
    (let* code := gets (fun m => res_statusCode (res m)) in
     let is404 := Z.eqb code 404 in
     let* result := if is404 && hasPage "/404" then findPage "/404" ∅ else ret None in
     let statusPage := "/" +:+ pretty code in
     let* customErrorRender := gets (fun m => ctx_query m !! "__nextCustomErrorRender") in
     let* result :=
       if negb (truthy customErrorRender) && negb (bool_decide (is_Some result))
          && list_includes statusPage STATIC_STATUS_PAGES
       then
         if negb (String.eqb statusPage "/500") || negb (dev this)
         then findPage statusPage ∅ else ret result
       else ret result in
     let* (result, statusPage) :=
       match result with
       | Some r => ret (Some r, statusPage)
       | None => let* r := findPage "/_error" ∅ in ret (r, "/_error")
       end in
     try_catch
       (match result with
        | Some r =>
            renderToResponseWithComponents (with_err err (with_pathname statusPage ctx)) r
        | None => throw (TypeError "Cannot destructure property 'components' of null")
        end)
       (fun maybeFallbackError =>
          if isNoFallbackError maybeFallbackError
          then throw (Error "invariant: failed to render error page")
          else throw maybeFallbackError))
    (fun renderToHtmlError =>
       let isWrappedError := isWrappedBuildError renderToHtmlError in
       when (negb isWrappedError) (record (call_logError renderToHtmlError)) ;;
       set_statusCode 500 ;;
       match getFallbackErrorComponents with
       | Some fallbackComponents =>
           on_ctx_query (fun query =>
             renderToResponseWithComponents
               (with_err (Some match renderToHtmlError with
                               | WrappedBuildError innerError => innerError
                               | e => e
                               end)
                         (with_pathname "/_error" ctx))
               {| components := fallbackComponents; found_query := query |})
       | None =>
           ret (Some {| type := html_type; body := fromStatic "Internal Server Error";
                        revalidateOptions := None |})
       end).

(** lines 1583-1603 *)
Fixpoint tryDynamicRoutes (ctx : RequestContext) (bubbleNoFallback : bool)
    (routes : list RoutingItem) : M (option (option ResponsePayload)) :=
  match routes with
  | [] => ret None
  | dynamicRoute :: rest =>
      match route_match dynamicRoute (ctx_pathname ctx) with
      | None => tryDynamicRoutes ctx bubbleNoFallback rest
      | Some params =>
          let* result :=
            renderPageComponent (with_params params (with_pathname (page dynamicRoute) ctx))
                                bubbleNoFallback in
          match result with
          | Some r => ret (Some r)
          | None => tryDynamicRoutes ctx bubbleNoFallback rest
          end
      end
  end.

(** lines 1576-1615, the body of the [try]: [Some r] when a candidate
    returned [r], [None] when every candidate answered [false] *)
Definition tryCandidates (ctx : RequestContext) (bubbleNoFallback : bool) :
    M (option (option ResponsePayload)) :=
  let* r :=
    if negb (isDynamicRoute (ctx_pathname ctx))
    then renderPageComponent ctx bubbleNoFallback else ret None in
  match r with
  | Some r => ret (Some r)
  | None =>
      let* r :=
        match dynamicRoutes this with
        | Some routes => tryDynamicRoutes ctx bubbleNoFallback routes
        | None => ret None
        end in
      match r with
      | Some r => ret (Some r)
      | None =>
          match webServerConfig this with
          | Some page => renderPageComponent (with_pathname page ctx) bubbleNoFallback
          | None => ret None
          end
      end
  end.

(** lines 1616-1673, the [catch] *)
Definition renderToResponse_catch (ctx : RequestContext) (bubbleNoFallback : bool)
    (err : JsError) : M (option (option ResponsePayload)) :=
  if isMissingStaticPage err then throw err
  else if isNoFallbackError err && bubbleNoFallback then throw err
  else if isDecodeOrNormalizeError err
  then
    set_statusCode 400 ;;
    let* response := renderErrorToResponse ctx (Some err) in
    ret (Some response)
  else
    set_statusCode 500 ;;
    when (hasPage "/500")
         (modify (with_ctx_query (insert "__nextCustomErrorRender" "1")) ;;
          renderErrorToResponse ctx (Some err) ;;
          modify (with_ctx_query (delete "__nextCustomErrorRender"))) ;;
    let isWrappedError := isWrappedBuildError err in
    if negb isWrappedError
       && ((minimalMode this && negb (NEXT_RUNTIME_edge this)) || dev this)
    then throw err
    else
      when (negb isWrappedError) (record (call_logError err)) ;;
      let* response :=
        renderErrorToResponse ctx
          (Some match err with WrappedBuildError innerError => innerError | e => e end) in
      ret (Some response).

(** lines 1675-1693: no candidate gave a result *)
Definition renderToResponse_exhausted (ctx : RequestContext) : M (option ResponsePayload) :=
  let* code := gets (fun m => res_statusCode (res m)) in
  if catchAllMiddleware this && truthy (header (ctx_req ctx) "x-nextjs-data")
     && (Z.eqb code 0 || Z.eqb code 200 || Z.eqb code 404)
  then
    let* nextLocale := gets (fun m => ctx_query m !! "__nextLocale") in
    setHeader "x-nextjs-matched-path" [localePrefix nextLocale +:+ ctx_pathname ctx] ;;
    set_statusCode 200 ;;
    setHeader "content-type" ["application/json"] ;;
    send_body "{}" ;;
    ret None
  else
    set_statusCode 404 ;;
    renderErrorToResponse ctx None.

(** lines 1567-1693 *)
Definition renderToResponse (ctx : RequestContext) : M (option ResponsePayload) :=
  let* bubble := gets (fun m => ctx_query m !! "_nextBubbleNoFallback") in
  let bubbleNoFallback := truthy bubble in
  modify (with_ctx_query (delete "_nextBubbleNoFallback")) ;;
  let* r :=
    try_catch (tryCandidates ctx bubbleNoFallback)
              (renderToResponse_catch ctx bubbleNoFallback) in
  match r with
  | Some result => ret result
  | None => renderToResponse_exhausted ctx
  end.

End Pipeline.

(** * A small deployment

    One statically generated dynamic page, [/blog/[slug]], an incremental
    cache that never holds anything, and stand-ins for the helpers.  The
    pipeline is run on it below. *)
Module Demo.

Definition emptyResponse : BaseNextResponse :=
  {| res_statusCode := 200; res_headers := ∅; res_sent := false; res_body := None |}.

Definition request (method : string) (headers : list (string * string)) : BaseNextRequest :=
  {| req_method := method; req_headers := list_to_map headers; req_nextRewroteUrl := None |}.

Definition start (url : string) (query : list (string * string)) : State :=
  {| mut := {| res := emptyResponse; url := url; ctx_query := list_to_map query;
               query := ∅ |};
     trace := [] |}.

(** What the renderer of the page answers. *)
Definition rendered (revalidate : Revalidate) : RenderOutput :=
  {| out_html := Some (fromStatic "<article>hello</article>");
     out_pageData := JsObject [("slug", JsString "hello")];
     out_revalidate := revalidate;
     out_isNotFound := false; out_isRedirect := false |}.

Definition renderedNothing : RenderOutput :=
  {| out_html := None; out_pageData := JsUndefined; out_revalidate := rev_undefined;
     out_isNotFound := false; out_isRedirect := false |}.

Definition blogPage : LoadComponentsReturnType :=
  {| Component := PageComponent false;
     ComponentMod_renderReqToHTML := false;
     ComponentMod_next_rsc := false;
     getServerSideProps := false;
     getStaticProps := true;
     getStaticPaths_defined := true;
     Document_getInitialProps := false;
     Document_builtin := true |}.

(** A statically generated [pages/404]. *)
Definition notFoundPage : LoadComponentsReturnType :=
  {| Component := PageComponent false;
     ComponentMod_renderReqToHTML := false;
     ComponentMod_next_rsc := false;
     getServerSideProps := false;
     getStaticProps := true;
     getStaticPaths_defined := false;
     Document_getInitialProps := false;
     Document_builtin := true |}.

(** An automatically statically optimized page. *)
Definition aboutPage : LoadComponentsReturnType :=
  {| Component := StaticPage "<main>about</main>";
     ComponentMod_renderReqToHTML := false;
     ComponentMod_next_rsc := false;
     getServerSideProps := false;
     getStaticProps := false;
     getStaticPaths_defined := false;
     Document_getInitialProps := false;
     Document_builtin := true |}.

Definition pages (pathname : string) (query : gmap string string) :
    option FindComponentsResult :=
  if String.eqb pathname "/blog/[slug]"
  then Some {| components := blogPage; found_query := query |}
  else if String.eqb pathname "/404"
  then Some {| components := notFoundPage; found_query := query |}
  else if String.eqb pathname "/about"
  then Some {| components := aboutPage; found_query := query |}
  else None.

#[warnings="-register-all"]
Fixpoint stringify (v : JsValue) : string :=
  match v with
  | JsUndefined => "undefined"
  | JsNull => "null"
  | JsBool b => if b then "true" else "false"
  | JsNumber n => pretty n
  | JsString s => "'" +:+ s +:+ "'"
  | JsObject fields =>
      "{" +:+ (fix go (l : list (string * JsValue)) : string :=
                 match l with
                 | [] => ""
                 | (k, v) :: rest => k +:+ ":" +:+ stringify v +:+ ";" +:+ go rest
                 end) fields +:+ "}"
  end.

Definition collaborators (out : RenderOutput) : Collaborators :=
  {| isBot := str_includes "Googlebot";
     isDynamicRoute := str_includes "[";
     parseUrl := fun u => {| url_pathname := Some u; url_query := ∅; url_rest := "" |};
     formatUrl := fun u => default "" (url_pathname u);
     removeTrailingSlash := fun p => p;
     normalizeLocalePath := fun p _ => p;
     denormalizePagePath := fun p => p;
     decodeURIComponent := fun seg => if str_includes "%" seg then None else Some seg;
     escapePathDelimiters := fun seg _ => seg;
     JSON_stringify := stringify;
     getRedirectStatus := fun _ => 307;
     normalizeRepeatedSlashes := fun p => p;
     res_redirect := fun destination code r =>
       {| res_statusCode := code;
          res_headers := <["Location" := [destination]]> (res_headers r);
          res_sent := res_sent r; res_body := res_body r |};
     setRevalidateHeaders := fun _ r => r;
     tryGetPreviewData := fun rq =>
       if truthy (header rq "cookie") then Some JsNull else None;
     checkIsManualRevalidate := fun rq =>
       (truthy (header rq "x-prerender-revalidate"),
        truthy (header rq "x-prerender-revalidate-if-generated"));
     getFallback := fun page => Ret ("<skeleton of " +:+ page +:+ ">");
     renderHTML := fun _ _ _ m => (Ret out, m);
     renderReqToHTML := fun _ m => (Ret out, m);
     renderErrorPipe := fun _ _ _ m =>
       (Ret tt, with_res (fun r =>
                  {| res_statusCode := res_statusCode r; res_headers := res_headers r;
                     res_sent := true; res_body := Some "error page" |}) m);
     findPageComponents := fun pathname query _ => Ret (pages pathname query);
     hasPage := fun pathname => bool_decide (is_Some (pages pathname ∅));
     STATIC_STATUS_PAGES := ["/500"];
     parseInt := fun _ => 500;
     getFallbackErrorComponents := None;
     responseCache_get := fun _ responseGenerator _ _ => responseGenerator false false |}.

Definition blogRoute : RoutingItem :=
  {| page := "/blog/[slug]";
     route_match := fun pathname =>
       if String.prefix "/blog/" pathname
       then Some {["slug" := String.substring 6 (String.length pathname - 6) pathname]}
       else None |}.

Definition server (fallback : FallbackField) (minimal development : bool) : Server :=
  {| minimalMode := minimal;
     dev := development;
     buildId := "BUILD";
     i18n := None;
     basePath := "";
     trailingSlash := false;
     NEXT_RUNTIME_edge := false;
     NEXT_REACT_ROOT := true;
     serverComponentManifest := false;
     webServerConfig := None;
     prerenderManifest_dynamicRoutes := {["/blog/[slug]" := fallback]};
     getStaticPaths_override := None;
     dynamicRoutes := Some [blogRoute];
     catchAllMiddleware := false;
     appDir := false;
     appPathRoutes := ∅ |}.

(** The closure environment of a request for [/blog/hello]. *)
Definition blogScope (rq : BaseNextRequest) (dataReq preview manual onlyGenerated : bool) :
    Scope :=
  {| req := rq; pathname := "/blog/[slug]"; params := Some {["slug" := "hello"]};
     supportsDynamicHTML := false;
     isLikeServerless := false; hasServerProps := false; hasStaticPaths := true;
     hasGetInitialProps := false; isSSG := true; isDataReq := dataReq;
     isFlightRequest := false; locale := None; defaultLocale_ := None;
     isPreviewMode := preview;
     isManualRevalidate := manual; revalidateOnlyGenerated := onlyGenerated;
     urlPathname := "/blog/hello"; resolvedUrlPathname := "/blog/hello";
     ssgCacheKey := if preview then None else Some "/blog/hello" |}.

Definition context (rq : BaseNextRequest) (pathname : string) : RequestContext :=
  {| ctx_req := rq; ctx_pathname := pathname; ctx_supportsDynamicHTML := false;
     ctx_params := None; ctx_err := None |}.

End Demo.

(** * More of [base-server.ts] and [build/webpack/config/utils.ts] *)

Section RenderOptions.
Context `{C : Collaborators}.
Variable this : Server.
Variable sc : Scope.

(** lines 1210-1218: the query of the original URL, without the params of
    the dynamic route *)
Definition origQueryOf (m : Mutable) : gmap string string :=
  let origQuery := url_query (parseUrl (url m)) in
  match params sc with
  | Some ps => origQuery ∖ ps
  | None => origQuery
  end.

(** lines 1219-1248: the [renderOpts] that [doRender] hands to [renderHTML] *)
Definition renderOptsOf (m : Mutable) : RenderOpts :=
  let hadTrailingSlash :=
    negb (String.eqb (urlPathname sc) "/") && trailingSlash this in
  let resolvedUrl :=
    formatUrl {| url_pathname :=
                   Some (resolvedUrlPathname sc +:+ (if hadTrailingSlash then "/" else ""));
                 url_query := origQueryOf m; url_rest := "" |} in
  {| opt_isDataReq := isDataReq sc;
     opt_resolvedUrl := resolvedUrl;
     opt_resolvedAsPath :=
       if hasServerProps sc || hasGetInitialProps sc
       then formatUrl {| url_pathname :=
                           Some (urlPathname sc +:+ (if hadTrailingSlash then "/" else ""));
                         url_query := origQueryOf m; url_rest := "" |}
       else resolvedUrl;
     opt_locale := locale sc;
     opt_defaultLocale := defaultLocale_ sc;
     opt_supportsDynamicHTML := supportsDynamicHTML sc |}.

(** lines 1190-1264: the one renderer [doRender] calls, and its name in the
    trace *)
Definition callRenderer (m : Mutable) : outcome RenderOutput * Mutable :=
  if isLikeServerless sc
  then renderReqToHTML (req sc) m
  else renderHTML (req sc) (pathname sc) (renderOptsOf m) m.

Definition rendererCall : Call :=
  if isLikeServerless sc then call_renderReqToHTML else call_renderHTML (pathname sc).

End RenderOptions.

(** ** [build/webpack/config/utils.ts] *)
Module WebpackConfigUtils.

(** lines 30-36.  A function of the list returns a value or a promise, which
    may reject; [reduce] starts from [param] itself. *)
Definition pipe {R : Type} (fns : list (R -> outcome R)) (param : R) : outcome R :=
  fold_left
    (fun (result : outcome R) (next : R -> outcome R) =>
       match result with
       | Ret r => next r
       | Throw e => Throw e
       end)
    fns (Ret param).

End WebpackConfigUtils.

(** ** The route tables *)

(** The helpers of [shared/lib/router/utils] the route tables are built with;
    [getRouteMatcher page] stands for [getRouteMatcher(getRouteRegex(page))],
    and [getSortedRoutes] throws on conflicting routes. *)
Class RouteCompiler := {
  normalizeAppPath : string -> string;
  getSortedRoutes : list string -> outcome (list string);
  getRouteMatcher : string -> string -> option (gmap string string);
}.

Section RouteTables.
Context `{C : Collaborators} `{R : RouteCompiler}.
Variable this : Server.

(** lines 764-775, over [Object.keys(this.appPathsManifest || {})] *)
Definition getAppPathRoutes (entries : list string) : gmap string (list string) :=
  fold_left
    (fun (appPathRoutes : gmap string (list string)) (entry : string) =>
       let normalizedPath := or_else (Some (normalizeAppPath entry)) "/" in
       <[normalizedPath := default [] (appPathRoutes !! normalizedPath) ++ [entry]]>
         appPathRoutes)
    entries ∅.

(** lines 753-761: the [map] over the sorted pages, with the set
    [addedPages], and the [filter] *)
Fixpoint addDynamicRoutes (addedPages : gset string) (pages : list string) :
    list RoutingItem :=
  match pages with
  | [] => []
  | page :: rest =>
      if bool_decide (page ∈ addedPages) || negb (isDynamicRoute page)
      then addDynamicRoutes addedPages rest
      else {| page := page; route_match := getRouteMatcher page |}
           :: addDynamicRoutes ({[page]} ∪ addedPages) rest
  end.

(** lines 741-762, over [Object.keys(this.appPathRoutes || {})] and
    [Object.keys(this.pagesManifest)] *)
Definition getDynamicRoutes (appPathRouteKeys pagesManifestKeys : list string) :
    outcome (list RoutingItem) :=
  match getSortedRoutes
          ((fun page => normalizeLocalePath page (locales <$> i18n this))
             <$> (appPathRouteKeys ++ pagesManifestKeys)) with
  | Ret sorted => Ret (addDynamicRoutes ∅ sorted)
  | Throw e => Throw e
  end.

End RouteTables.

(** lines 718-720: the value stored in [renderOpts.assetPrefix] *)
Definition setAssetPrefix (prefix : option string) : string :=
  if truthy prefix then strip_suffix "/" (default "" prefix) else "".

(** ** Sending and routing *)

(** The router and the transport of a deployment.  [sendRenderResult] gets
    [generateEtags] and [poweredByHeader] from [this.renderOpts]; they are
    constants of the server and are left inside it.  [router_execute] is
    [this.router.execute(req, res, parsedUrl)]: it works on the [res] and the
    [parsedUrl.query] (the [query] of the state) of the request. *)
Class Transport := {
  sendRenderResult : BaseNextRequest -> ResponsePayload -> Mutable -> outcome unit * Mutable;
  handleCompression : BaseNextRequest -> Mutable -> Mutable;
  router_execute : BaseNextRequest -> string -> State -> outcome bool * State;
}.

Section Sending.
Context `{C : Collaborators} `{T : Transport}.
Variable this : Server.

(** lines 800-837.  The [query] of the partial context is the [ctx_query] of
    the state. *)
Definition pipe (fn : RequestContext -> M (option ResponsePayload))
    (req : BaseNextRequest) (pathname : string) : M unit :=
  let isBotRequest := isBot (or_else (header req "user-agent") "") in
  let ctx :=
    {| ctx_req := req; ctx_pathname := pathname;
       ctx_supportsDynamicHTML := negb isBotRequest;
       ctx_params := None; ctx_err := None |} in
  let* payload := fn ctx in
  match payload with
  | None => ret tt
  | Some payload =>
      let* sent := gets (fun m => res_sent (res m)) in
      if negb sent
      then
        when (dev this) (setHeader "Cache-Control" ["no-store, must-revalidate"]) ;;
        (fun s =>
           let '(o, m) := sendRenderResult req payload (mut s) in
           (o, {| mut := m; trace := trace s |}))
      else ret tt
  end.

(** lines 777-798.  [parsedUrl] is the pathname of the parsed URL; its query
    is the [query] of the state. *)
Definition run (req : BaseNextRequest) (parsedUrl : string) : M unit :=
  modify (handleCompression req) ;;
  let* matched :=
    try_catch
      (let* matched := router_execute req parsedUrl in ret (Some matched))
      (fun err =>
         if isDecodeOrNormalizeError err
         then
           set_statusCode 400 ;;
           renderError None "/_error" (Some ∅) true ;;
           ret None
         else throw err) in
  match matched with
  | None => ret tt
  | Some true => ret tt
  | Some false => render404 this (Some parsedUrl) true
  end.

End Sending.

(** * More deployments: a development server, a middleware, locales *)

Module Fixtures.


Definition server (development middleware : bool) (base : string) (i : option I18n)
    (override : option (string -> Mutable -> outcome StaticPathsResult * Mutable)) : Server :=
  {| minimalMode := false;
     dev := development;
     buildId := "BUILD";
     i18n := i;
     basePath := base;
     trailingSlash := false;
     NEXT_RUNTIME_edge := false;
     NEXT_REACT_ROOT := true;
     serverComponentManifest := false;
     webServerConfig := None;
     prerenderManifest_dynamicRoutes := {["/blog/[slug]" := fallback_string "/blog/[slug].html"]};
     getStaticPaths_override := override;
     dynamicRoutes := Some [Demo.blogRoute];
     catchAllMiddleware := middleware;
     appDir := false;
     appPathRoutes := ∅ |}.

Definition renderedNotFound : RenderOutput :=
  {| out_html := Some (fromStatic "<article>gone</article>");
     out_pageData := JsUndefined; out_revalidate := rev_seconds 10;
     out_isNotFound := true; out_isRedirect := true |}.

Definition redirectProps : JsValue :=
  JsObject [("pageProps", JsObject [("__N_REDIRECT", JsString "/login")])].

(** A URL parser that knows one query string. *)
Definition parse (u : string) : UrlObject :=
  if String.eqb u "/blog/hello?slug=other&page=2"
  then {| url_pathname := Some "/blog/hello";
          url_query := {["slug" := "other"; "page" := "2"]}; url_rest := "" |}
  else {| url_pathname := Some u; url_query := ∅; url_rest := "" |}.

(** [Demo.collaborators] with another page loader and another renderer. *)
Definition collaborators
    (find : string -> gmap string string -> gmap string string ->
            outcome (option FindComponentsResult))
    (render : Mutable -> outcome RenderOutput * Mutable) : Collaborators :=
  let base := Demo.collaborators Demo.renderedNothing in
  {| isBot := @isBot base;
     isDynamicRoute := @isDynamicRoute base;
     parseUrl := parse;
     formatUrl := @formatUrl base;
     removeTrailingSlash := @removeTrailingSlash base;
     normalizeLocalePath := @normalizeLocalePath base;
     denormalizePagePath := @denormalizePagePath base;
     decodeURIComponent := @decodeURIComponent base;
     escapePathDelimiters := @escapePathDelimiters base;
     JSON_stringify := @JSON_stringify base;
     getRedirectStatus := @getRedirectStatus base;
     normalizeRepeatedSlashes := @normalizeRepeatedSlashes base;
     res_redirect := @res_redirect base;
     setRevalidateHeaders := @setRevalidateHeaders base;
     tryGetPreviewData := @tryGetPreviewData base;
     checkIsManualRevalidate := @checkIsManualRevalidate base;
     getFallback := @getFallback base;
     renderHTML := fun _ _ _ => render;
     renderReqToHTML := fun _ => render;
     renderErrorPipe := @renderErrorPipe base;
     findPageComponents := find;
     hasPage := @hasPage base;
     STATIC_STATUS_PAGES := @STATIC_STATUS_PAGES base;
     parseInt := @parseInt base;
     getFallbackErrorComponents := @getFallbackErrorComponents base;
     responseCache_get := @responseCache_get base |}.

Definition found (pathname : string) (query params : gmap string string) :
    outcome (option FindComponentsResult) :=
  Ret (Demo.pages pathname query).

Definition docsRoute : RoutingItem :=
  {| page := "/docs/[...path]";
     route_match := fun pathname =>
       if String.prefix "/docs/" pathname
       then Some {["path" := String.substring 6 (String.length pathname - 6) pathname]}
       else None |}.

(** App paths are normalized by dropping a final [/page]; routes are sorted
    as they come; a route matches its own page only. *)
Definition routeCompiler : RouteCompiler :=
  {| normalizeAppPath := strip_suffix "/page";
     getSortedRoutes := fun routes =>
       if list_includes "" routes
       then Throw (Error "Route path is empty") else Ret routes;
     getRouteMatcher := fun page pathname =>
       if String.eqb page pathname then Some ∅ else None |}.

(** The router knows [/about]; it fails to decode a [%] in the path. *)
Definition transport : Transport :=
  {| sendRenderResult := fun _ payload m =>
       (Ret tt,
        with_res (fun r =>
          {| res_statusCode := res_statusCode r; res_headers := res_headers r;
             res_sent := true;
             res_body := Some match body payload with
                              | fromStatic html => html
                              | fromStream _ => "<stream>"
                              end |}) m);
     handleCompression := fun _ m => m;
     router_execute := fun _ parsedUrl s =>
       if str_includes "%" parsedUrl
       then (Throw (DecodeError "failed to decode param"), s)
       else (Ret (String.eqb parsedUrl "/about"), s) |}.

End Fixtures.

(** * Properties *)

Ltac run :=
  cbv beta delta [bind ret throw gets modify record extern when lift_outcome
                  set_statusCode setHeader send_body set_query delete_query] in *;
  cbn beta iota zeta in *.

Section GeneratorProperties.
Context `{C : Collaborators}.
Variable this : Server.
Variable sc : Scope.

Lemma FallbackMode_eqb_eq a b : FallbackMode_eqb a b = true <-> a = b.
Proof. destruct a, b; cbn; split; congruence. Qed.

(** With the base [getStaticPaths], reading the declaration changes nothing. *)
Lemma getStaticPaths_base pathname fallbackField s :
  getStaticPaths_override this = None ->
  prerenderManifest_dynamicRoutes this !! pathname = Some fallbackField ->
  getStaticPaths this pathname s =
    (Ret (None, match fallbackField with
                | fallback_string _ => fm_static
                | fallback_null => fm_blocking
                | fallback_false => fm_false
                end), s).
Proof. intros Ho Hm. unfold getStaticPaths. rewrite Ho, Hm. reflexivity. Qed.

(** Reading the declaration leaves at most a [getStaticPaths] call behind. *)
Lemma resolveFallback_trace s o s1 :
  resolveFallback this sc s = (o, s1) ->
  trace s1 = trace s \/ trace s1 = trace s ++ [call_getStaticPaths (pathname sc)].
Proof.
  unfold resolveFallback, getStaticPaths. run.
  destruct (hasStaticPaths sc); [|intros [= <- <-]; by left].
  destruct (getStaticPaths_override this) as [f|].
  - destruct (f (pathname sc) (mut s)) as [[[sp fm]|e] m] eqn:Hf; rewrite ?Hf;
      intros [= <- <-]; by right.
  - destruct (prerenderManifest_dynamicRoutes this !! pathname sc);
      intros [= <- <-]; by left.
Qed.

(** [renderAndPersist] keeps what [doRender] produced and fills in the
    default. *)
Lemma renderAndPersist_spec s :
  renderAndPersist this sc s =
    match doRender this sc s with
    | (Ret (Some result), s') =>
        (Ret (Some (with_revalidate
                      match revalidate result with
                      | rev_undefined => rev_seconds 1
                      | r => r
                      end result)), s')
    | (Ret None, s') => (Ret None, s')
    | (Throw e, s') => (Throw e, s')
    end.
Proof.
  unfold renderAndPersist. run.
  destruct (doRender this sc s) as [[[r|]|e] s']; reflexivity.
Qed.

(** The generator, once the fallback declaration has been read. *)
Lemma responseGenerator_branch hasResolved hadCache s staticPaths fallbackMode s1 :
  resolveFallback this sc s = (Ret (staticPaths, fallbackMode), s1) ->
  responseGenerator this sc hasResolved hadCache s =
    match branch this sc hasResolved hadCache (res_sent (res (mut s))) staticPaths fallbackMode
                 (query (mut s1) !! "amp") with
    | br_notFound => (render404 this None true ;; ret None) s1
    | br_noFallback => (Throw NoFallbackError, s1)
    | br_skeleton =>
        if negb (dev this)
        then
          (let* html :=
             extern (call_getFallback (fallbackPage sc))
                    (fun m => (getFallback (fallbackPage sc), m)) in
           ret (Some (mkEntry rev_undefined (Some (PAGE (fromStatic html) (JsObject []))))))
            s1
        else
          (requestFallback sc ;;
           let* result := doRender this sc in
           match result with
           | None => ret None
           | Some result => ret (Some (with_revalidate rev_undefined result))
           end) s1
    | br_render => renderAndPersist this sc s1
    end.
Proof.
  intros Hr. unfold responseGenerator, branch.
  cbv beta delta [bind gets] in *. cbn beta iota zeta. rewrite Hr. cbn beta iota zeta.
  destruct (skipManualRevalidate this sc hadCache); [reflexivity|].
  destruct (fallbackGuard _ _ _ _ _ _); [|reflexivity].
  destruct (noFallback _ _ _); [reflexivity|].
  destruct (negb (isDataReq sc)); [|reflexivity].
  destruct (negb (dev this)); reflexivity.
Qed.

(** C7: on the full-render path of the miss handler the entry handed to the
    store is what [doRender] produced, with [revalidate] set to exactly 1 when
    the producer left it undefined and left as it is otherwise. *)
Theorem persisted_revalidate_defaults_to_one
    hasResolved hadCache s staticPaths fallbackMode s1 result s2 :
  resolveFallback this sc s = (Ret (staticPaths, fallbackMode), s1) ->
  branch this sc hasResolved hadCache (res_sent (res (mut s))) staticPaths fallbackMode
         (query (mut s1) !! "amp") = br_render ->
  doRender this sc s1 = (Ret (Some result), s2) ->
  exists entry,
    responseGenerator this sc hasResolved hadCache s = (Ret (Some entry), s2)
    /\ value entry = value result
    /\ (revalidate result = rev_undefined -> revalidate entry = rev_seconds 1)
    /\ (revalidate result <> rev_undefined -> revalidate entry = revalidate result).
Proof.
  intros Hr Hb Hd.
  rewrite (responseGenerator_branch _ _ _ _ _ _ Hr), Hb, renderAndPersist_spec, Hd.
  eexists. split; [reflexivity|]. cbn.
  destruct (revalidate result); repeat split; congruence.
Qed.

(** C6: an entry produced on the skeleton path carries no [revalidate]: in
    production it is built from the fallback artifact without one, in
    development it is the result of [doRender] with [revalidate] deleted. *)
Theorem skeleton_entry_has_no_revalidate
    hasResolved hadCache s staticPaths fallbackMode s1 :
  resolveFallback this sc s = (Ret (staticPaths, fallbackMode), s1) ->
  branch this sc hasResolved hadCache (res_sent (res (mut s))) staticPaths fallbackMode
         (query (mut s1) !! "amp") = br_skeleton ->
  (forall entry s',
     responseGenerator this sc hasResolved hadCache s = (Ret (Some entry), s') ->
     revalidate entry = rev_undefined)
  /\ (dev this = false ->
      forall html, getFallback (fallbackPage sc) = Ret html ->
      responseGenerator this sc hasResolved hadCache s =
        (Ret (Some (mkEntry rev_undefined (Some (PAGE (fromStatic html) (JsObject []))))),
         {| mut := mut s1; trace := trace s1 ++ [call_getFallback (fallbackPage sc)] |}))
  /\ (dev this = true ->
      forall result s2,
        doRender this sc (snd (requestFallback sc s1)) = (Ret (Some result), s2) ->
        responseGenerator this sc hasResolved hadCache s =
          (Ret (Some (with_revalidate rev_undefined result)), s2)).
Proof.
  intros Hr Hb.
  rewrite (responseGenerator_branch _ _ _ _ _ _ Hr), Hb.
  split; [|split].
  - intros entry s'. destruct (dev this); cbn [negb]; run.
    + destruct (requestFallback sc s1) as [[[]|e] s2]; [|discriminate].
      destruct (doRender this sc s2) as [[[r|]|e] s3]; [|discriminate..].
      intros [= <- <-]. reflexivity.
    + destruct (getFallback (fallbackPage sc)); [|discriminate].
      intros [= <- <-]. reflexivity.
  - intros -> html Hf. cbn [negb]. run. rewrite Hf. reflexivity.
  - intros -> result s2. cbn [negb]. run.
    destruct (requestFallback sc s1) as [[[]|e] s3] eqn:Hq; cbn [snd].
    + intros ->. reflexivity.
    + exfalso. revert Hq. unfold requestFallback, prepareServerlessUrl. run.
      destruct (isLikeServerless sc); discriminate.
Qed.

(** C8: for a page with [getStaticPaths] whose manifest entry declares a
    string fallback, a request from a bot makes the mode the miss handler
    works with ['blocking']; the manual-revalidate step keeps it, and with it
    the skeleton and [NoFallbackError] branch is never entered. *)
Theorem bot_escalates_static_fallback fallbackFile s :
  getStaticPaths_override this = None ->
  hasStaticPaths sc = true ->
  prerenderManifest_dynamicRoutes this !! pathname sc = Some (fallback_string fallbackFile) ->
  isBot (or_else (header (req sc) "user-agent") "") = true ->
  resolveFallback this sc s = (Ret (None, fm_blocking), s)
  /\ (forall hadCache, manualRevalidateFallback sc hadCache fm_blocking = fm_blocking)
  /\ (forall didRespond staticPaths amp,
        fallbackGuard this sc didRespond staticPaths fm_blocking amp = false).
Proof.
  intros Ho Hp Hm Hb. split; [|split].
  - unfold resolveFallback. run. rewrite Hp.
    rewrite (getStaticPaths_base _ _ _ Ho Hm). cbn. rewrite Hb. reflexivity.
  - intros hadCache. unfold manualRevalidateFallback. by destruct (_ && _).
  - intros didRespond staticPaths amp. unfold fallbackGuard. cbn.
    by rewrite andb_false_r.
Qed.

(** C2 (amended): outside minimal mode, a manual revalidation restricted to
    generated paths that finds no cached entry sets the status to 404, enters
    the error-page pipeline with that status and hands [null] to the store;
    [doRender] and the renderers are not called. *)
Theorem manual_revalidate_ungenerated_is_404 hasResolved s r s1 :
  minimalMode this = false ->
  isManualRevalidate sc = true ->
  revalidateOnlyGenerated sc = true ->
  resolveFallback this sc s = (Ret r, s1) ->
  let u := parseUrl (url (mut s1)) in
  let page := default "" (url_pathname u) in
  let query :=
    match i18n this with
    | Some i => i18n_defaults i (url_query u)
    | None => url_query u
    end in
  exists m404 added,
    res_statusCode (res m404) = 404
    /\ responseGenerator this sc hasResolved false s =
         (match fst (renderErrorPipe None page (Some query) m404) with
          | Ret _ => Ret None
          | Throw e => Throw e
          end,
          {| mut := snd (renderErrorPipe None page (Some query) m404);
             trace := trace s ++ added ++ [call_renderErrorPipe 404 page] |})
    /\ (added = [] \/ added = [call_getStaticPaths (pathname sc)]).
Proof.
  intros Hmin Hman Honly Hr u page query. destruct r as [staticPaths fallbackMode].
  rewrite (responseGenerator_branch _ _ _ _ _ _ Hr).
  unfold branch, skipManualRevalidate. rewrite Hmin, Hman, Honly. cbn [andb negb].
  exists (mut (snd ((set_statusCode 404 ;;
                     setHeader "Cache-Control"
                       ["no-cache, no-store, max-age=0, must-revalidate"]) s1))).
  assert (Ha : exists added,
             trace s1 = trace s ++ added
             /\ (added = [] \/ added = [call_getStaticPaths (pathname sc)])).
  { destruct (resolveFallback_trace _ _ _ Hr) as [Ht|Ht]; rewrite Ht.
    - exists []. rewrite app_nil_r. by split; [|left].
    - eexists. by split; [|right]. }
  destruct Ha as (added & Ht & Ha). exists added.
  split; [reflexivity|]. split; [|exact Ha].
  unfold render404, renderError. run. fold u. fold page.
  cbn [trace mut fst snd]. rewrite Ht, <- app_assoc. subst query.
  destruct (renderErrorPipe _ _ _ _) as [[[]|e] m']; reflexivity.
Qed.

(** The miss handler of a production server outside minimal mode raises
    [NoFallbackError] for a dynamic page whose fallback is declared [false],
    unless the request is a manual revalidation restricted to generated
    paths or a response was already sent. *)
Lemma no_fallback_raised s :
  getStaticPaths_override this = None ->
  hasStaticPaths sc = false
  \/ prerenderManifest_dynamicRoutes this !! pathname sc = Some fallback_false ->
  dev this = false ->
  minimalMode this = false ->
  truthy (ssgCacheKey sc) = true ->
  res_sent (res (mut s)) = false ->
  isPreviewMode sc = false ->
  isDynamicRoute (pathname sc) = true ->
  isManualRevalidate sc && revalidateOnlyGenerated sc = false ->
  responseGenerator this sc false false s = (Throw NoFallbackError, s).
Proof.
  intros Ho Hdecl Hdev Hmin Hkey Hsent Hprev Hdyn Hman.
  assert (Hr : resolveFallback this sc s = (Ret (None, fm_false), s)).
  { unfold resolveFallback. run. destruct Hdecl as [->| Hm]; [reflexivity|].
    destruct (hasStaticPaths sc); [|reflexivity].
    rewrite (getStaticPaths_base _ _ _ Ho Hm). reflexivity. }
  rewrite (responseGenerator_branch _ _ _ _ _ _ Hr).
  unfold branch, skipManualRevalidate, manualRevalidateFallback, fallbackGuard, noFallback.
  rewrite Hsent, Hmin, Hdev, Hkey, Hprev, Hdyn. cbn.
  destruct (isManualRevalidate sc); cbn in *; [rewrite Hman|]; reflexivity.
Qed.

End GeneratorProperties.

(** ** The miss handler on the small deployment *)

(** C7 at [/blog/hello] with [fallback: 'blocking'] and a renderer that
    leaves [revalidate] undefined: the entry is persisted with 1. *)
Lemma persisted_revalidate_defaults_to_one_witness :
  exists entry,
    fst (responseGenerator (C := Demo.collaborators (Demo.rendered rev_undefined))
           (Demo.server fallback_null false false)
           (Demo.blogScope (Demo.request "GET" []) false false false false)
           false false (Demo.start "/blog/hello" []))
    = Ret (Some entry)
    /\ revalidate entry = rev_seconds 1.
Proof.
  edestruct (persisted_revalidate_defaults_to_one
               (C := Demo.collaborators (Demo.rendered rev_undefined))
               (Demo.server fallback_null false false)
               (Demo.blogScope (Demo.request "GET" []) false false false false)
               false false (Demo.start "/blog/hello" []) None fm_blocking
               (Demo.start "/blog/hello" []))
    as (entry & He & _ & Hu & _).
  - vm_compute. reflexivity.
  - vm_compute. reflexivity.
  - vm_compute. reflexivity.
  - exists entry. rewrite He. split; [reflexivity|]. apply Hu. reflexivity.
Defined.

(** C6 on a production server with a string fallback: the skeleton of
    [/blog/[slug]] is served and handed to the store without [revalidate]. *)
Lemma skeleton_entry_has_no_revalidate_witness :
  let run :=
    responseGenerator (C := Demo.collaborators (Demo.rendered (rev_seconds 60)))
      (Demo.server (fallback_string "/blog/[slug].html") false false)
      (Demo.blogScope (Demo.request "GET" []) false false false false)
      false false (Demo.start "/blog/hello" []) in
  fst run
  = Ret (Some (mkEntry rev_undefined
                 (Some (PAGE (fromStatic "<skeleton of /blog/[slug]>") (JsObject [])))))
  /\ forall entry s', run = (Ret (Some entry), s') -> revalidate entry = rev_undefined.
Proof.
  destruct (skeleton_entry_has_no_revalidate
              (C := Demo.collaborators (Demo.rendered (rev_seconds 60)))
              (Demo.server (fallback_string "/blog/[slug].html") false false)
              (Demo.blogScope (Demo.request "GET" []) false false false false)
              false false (Demo.start "/blog/hello" []) None fm_static
              (Demo.start "/blog/hello" []))
    as (Hany & Hprod & _).
  - vm_compute. reflexivity.
  - vm_compute. reflexivity.
  - cbv zeta. split.
    + rewrite (Hprod eq_refl _ eq_refl). reflexivity.
    + exact Hany.
Defined.

(** C8 for a crawler asking for [/blog/hello]. *)
Lemma bot_escalates_static_fallback_witness :
  fst (resolveFallback (C := Demo.collaborators (Demo.rendered rev_undefined))
         (Demo.server (fallback_string "/blog/[slug].html") false false)
         (Demo.blogScope (Demo.request "GET" [("user-agent", "Googlebot/2.1")])
                         false false false false)
         (Demo.start "/blog/hello" []))
  = Ret (None, fm_blocking).
Proof.
  destruct (bot_escalates_static_fallback
              (C := Demo.collaborators (Demo.rendered rev_undefined))
              (Demo.server (fallback_string "/blog/[slug].html") false false)
              (Demo.blogScope (Demo.request "GET" [("user-agent", "Googlebot/2.1")])
                              false false false false)
              "/blog/[slug].html" (Demo.start "/blog/hello" []))
    as (Hr & _ & _).
  - reflexivity.
  - reflexivity.
  - vm_compute. reflexivity.
  - vm_compute. reflexivity.
  - rewrite Hr. reflexivity.
Defined.

(** C2 for a manual revalidation of the ungenerated [/blog/hello]. *)
Lemma manual_revalidate_ungenerated_is_404_witness :
  let run :=
    responseGenerator (C := Demo.collaborators (Demo.rendered rev_undefined))
      (Demo.server fallback_null false false)
      (Demo.blogScope (Demo.request "GET" []) false false true true)
      false false (Demo.start "/blog/hello" []) in
  fst run = Ret None
  /\ exists added,
       trace (snd run) = added ++ [call_renderErrorPipe 404 "/blog/hello"]
       /\ (added = [] \/ added = [call_getStaticPaths "/blog/[slug]"]).
Proof.
  destruct (manual_revalidate_ungenerated_is_404
              (C := Demo.collaborators (Demo.rendered rev_undefined))
              (Demo.server fallback_null false false)
              (Demo.blogScope (Demo.request "GET" []) false false true true)
              false (Demo.start "/blog/hello" []) (None, fm_blocking)
              (Demo.start "/blog/hello" []))
    as (m404 & added & _ & Hrun & Hadded).
  - reflexivity.
  - reflexivity.
  - reflexivity.
  - vm_compute. reflexivity.
  - cbv zeta. rewrite Hrun. split; [reflexivity|].
    exists added. split; [reflexivity|exact Hadded].
Defined.

(** C2 as stated fails in minimal mode: the same manual revalidation renders
    the page through [doRender] and no 404 is produced. *)
Lemma manual_revalidate_minimal_mode_renders :
  let run :=
    responseGenerator (C := Demo.collaborators (Demo.rendered rev_undefined))
      (Demo.server fallback_null true false)
      (Demo.blogScope (Demo.request "GET" []) false false true true)
      false false (Demo.start "/blog/hello" []) in
  isManualRevalidate (Demo.blogScope (Demo.request "GET" []) false false true true) = true
  /\ revalidateOnlyGenerated (Demo.blogScope (Demo.request "GET" []) false false true true)
     = true
  /\ fst run
     = Ret (Some (mkEntry (rev_seconds 1)
                    (Some (PAGE (fromStatic "<article>hello</article>")
                                (JsObject [("slug", JsString "hello")])))))
  /\ trace (snd run) = [call_doRender; call_renderHTML "/blog/[slug]"]
  /\ res_statusCode (res (mut (snd run))) = 200.
Proof. vm_compute. repeat split; reflexivity. Qed.

Section PipelineProperties.
Context `{C : Collaborators}.
Variable this : Server.

(** [renderToResponseWithComponents] once the closures' constants are known. *)
Lemma renderToResponseWithComponents_scope ctx result s sc s1 :
  prepare this ctx result s = (Ret (inr sc), s1) ->
  renderToResponseWithComponents this ctx result s =
    (let* cacheEntry :=
       responseCache_get (ssgCacheKey sc) (responseGenerator this sc)
         (isManualRevalidate sc)
         (bool_decide (header (req sc) "purpose" = Some "prefetch")) in
     serveCacheEntry this sc cacheEntry) s1.
Proof.
  intros Hp. unfold renderToResponseWithComponents.
  cbv beta delta [bind]. rewrite Hp. reflexivity.
Qed.

(** C1 (amended): when the store hands back no entry although the cache key
    is a non-empty string, and the request is not a manual revalidation
    restricted to generated paths, [renderToResponseWithComponents] throws
    the plain [Error] "invariant: cache entry required but not generated",
    which is an instance of none of the error classes the dispatcher tells
    apart. *)
Theorem missing_entry_raises_invariant ctx result s sc s1 s2 :
  prepare this ctx result s = (Ret (inr sc), s1) ->
  responseCache_get (ssgCacheKey sc) (responseGenerator this sc)
    (isManualRevalidate sc)
    (bool_decide (header (req sc) "purpose" = Some "prefetch")) s1 = (Ret None, s2) ->
  truthy (ssgCacheKey sc) = true ->
  isManualRevalidate sc && revalidateOnlyGenerated sc = false ->
  renderToResponseWithComponents this ctx result s
  = (Throw (Error "invariant: cache entry required but not generated"), s2)
  /\ isNoFallbackError invariant_no_cache_entry = false
  /\ isDecodeOrNormalizeError invariant_no_cache_entry = false
  /\ isMissingStaticPage invariant_no_cache_entry = false
  /\ isWrappedBuildError invariant_no_cache_entry = false.
Proof.
  intros Hp Hget Hkey Hman. split; [|by repeat split].
  rewrite (renderToResponseWithComponents_scope _ _ _ _ _ Hp).
  cbv beta delta [bind]. rewrite Hget. cbn beta iota.
  unfold serveCacheEntry. rewrite Hkey, Hman. reflexivity.
Qed.

(** C9: a [PAGE] entry handed back by the store is answered to a data request
    as a ['json'] payload whose body is [JSON.stringify] of the stored
    [pageData], and to any other request as an ['html'] payload whose body is
    the stored [html]. *)
Theorem page_entry_round_trip ctx result s sc s1 entry s2 html pageData :
  prepare this ctx result s = (Ret (inr sc), s1) ->
  responseCache_get (ssgCacheKey sc) (responseGenerator this sc)
    (isManualRevalidate sc)
    (bool_decide (header (req sc) "purpose" = Some "prefetch")) s1
  = (Ret (Some entry), s2) ->
  value entry = Some (PAGE html pageData) ->
  exists payload s3,
    renderToResponseWithComponents this ctx result s = (Ret (Some payload), s3)
    /\ (isDataReq sc = true ->
        type payload = json_type /\ body payload = fromStatic (JSON_stringify pageData))
    /\ (isDataReq sc = false ->
        type payload = html_type /\ body payload = html).
Proof.
  intros Hp Hget Hv.
  rewrite (renderToResponseWithComponents_scope _ _ _ _ _ Hp).
  cbv beta delta [bind]. rewrite Hget. cbn beta iota.
  unfold serveCacheEntry. rewrite Hv. run.
  destruct (isSSG sc && negb (minimalMode this)); cbn beta iota;
    (do 2 eexists; split; [reflexivity|]; cbn [type body];
     split; intros ->; split; reflexivity).
Qed.

(** The key of a scope is the normalized form of the derived key. *)
Lemma scopeOf_key ctx components dataReq flight nextLocale nextDefaultLocale amp u sc :
  scopeOf this ctx components dataReq flight nextLocale nextDefaultLocale amp u
  = Ret sc ->
  normalizeCacheKey (pathname sc)
    (deriveCacheKey (pathname sc) (isSSG sc) (isPreviewMode sc) (supportsDynamicHTML sc)
                    (isFlightRequest sc) (locale sc) amp (resolvedUrlPathname sc))
  = Ret (ssgCacheKey sc).
Proof.
  unfold scopeOf.
  destruct (if isSSG_of this components then _ else _) as [manual onlyGenerated].
  destruct (normalizeCacheKey _ _) as [key|e] eqn:Hk; [|discriminate].
  intros [= <-]. cbn. exact Hk.
Qed.

(** C4 (amended): in preview mode the cache key is [null], unless the page
    is a statically generated [/404] or [/500]. *)
Theorem preview_mode_bypasses_cache
    ctx components dataReq flight nextLocale nextDefaultLocale amp u sc :
  scopeOf this ctx components dataReq flight nextLocale nextDefaultLocale amp u
  = Ret sc ->
  isPreviewMode sc = true ->
  (String.eqb (pathname sc) "/404" || String.eqb (pathname sc) "/500") && isSSG sc = false ->
  ssgCacheKey sc = None.
Proof.
  intros Hsc Hprev Hstatus. apply scopeOf_key in Hsc.
  unfold deriveCacheKey in Hsc. rewrite Hprev, Hstatus in Hsc. cbn in Hsc. congruence.
Qed.

Lemma split_on_nonempty sep s : split_on sep s <> [].
Proof.
  destruct s as [|c rest]; cbn; [done|].
  destruct (Ascii.eqb c sep); [done|]. by destruct (split_on sep rest).
Qed.

(** [s.split('/').join('/')] is [s]. *)
Lemma join_split s : join_with "/" (split_on "/"%char s) = s.
Proof.
  induction s as [|c rest IH]; [reflexivity|]. cbn [split_on].
  destruct (Ascii.eqb c "/") eqn:Hc.
  - apply Ascii.eqb_eq in Hc as ->.
    pose proof (split_on_nonempty "/"%char rest) as Hne.
    destruct (split_on "/"%char rest) as [|seg segs]; [done|].
    cbn [join_with]. cbn [join_with] in IH. rewrite IH. reflexivity.
  - pose proof (split_on_nonempty "/"%char rest) as Hne.
    destruct (split_on "/"%char rest) as [|seg segs]; [done|].
    destruct segs as [|seg' segs]; cbn [join_with] in *; rewrite <- IH; reflexivity.
Qed.

Lemma map_opt_fixed {A} (f : A -> option A) (l : list A) :
  (forall x, x ∈ l -> f x = Some x) -> map_opt f l = Some l.
Proof.
  induction l as [|x l IH]; intros Hf; [reflexivity|]. cbn.
  rewrite (Hf x) by set_solver. rewrite IH by set_solver. reflexivity.
Qed.

(** C5: for a statically generated [/404] or [/500] the derived key is the
    locale prefix, the status pathname and the optional [.amp] suffix,
    whatever the resolved path, preview mode, dynamic-HTML support or flight
    request; the normalized key depends on nothing else, and it is that very
    string when decoding and escaping leave its segments as they are. *)
Theorem status_page_cache_key
    pathname preview dynamicHTML flight locale amp resolvedUrlPathname :
  pathname = "/404" \/ pathname = "/500" ->
  let key := localePrefix locale +:+ pathname +:+ ampSuffix amp in
  deriveCacheKey pathname true preview dynamicHTML flight locale amp resolvedUrlPathname
  = Some key
  /\ (forall preview' dynamicHTML' flight' resolvedUrlPathname',
        normalizeCacheKey pathname
          (deriveCacheKey pathname true preview' dynamicHTML' flight' locale amp
                          resolvedUrlPathname')
        = normalizeCacheKey pathname
            (deriveCacheKey pathname true preview dynamicHTML flight locale amp
                            resolvedUrlPathname))
  /\ ((forall seg, seg ∈ split_on "/"%char key ->
         decodeURIComponent seg = Some seg /\ escapePathDelimiters seg true = seg) ->
      normalizeCacheKey pathname
        (deriveCacheKey pathname true preview dynamicHTML flight locale amp
                        resolvedUrlPathname)
      = Ret (Some key)).
Proof.
  intros Hstatus key.
  assert (Hd : forall p d f r,
             deriveCacheKey pathname true p d f locale amp r = Some key).
  { intros p d f r. unfold deriveCacheKey.
    destruct Hstatus as [-> | ->]; reflexivity. }
  split; [apply Hd|]. split; [intros; by rewrite !Hd|].
  intros Hfixed. rewrite Hd. unfold normalizeCacheKey.
  assert (Hne : truthy (Some key) = true).
  { subst key. unfold localePrefix.
    destruct Hstatus as [-> | ->]; destruct (truthy locale); reflexivity. }
  rewrite Hne. cbn [default]. rewrite map_opt_fixed.
  - rewrite join_split.
    replace (String.eqb pathname "/") with false
      by (destruct Hstatus as [-> | ->]; reflexivity).
    by rewrite andb_false_r.
  - intros seg Hseg. destruct (Hfixed seg Hseg) as [Hdec Hesc].
    rewrite Hdec. cbn. by rewrite Hesc.
Qed.

Lemma methodNotAllowed_true pathname method components :
  pathname <> "/404" -> pathname <> "/500" -> pathname <> "/_error" ->
  method <> "HEAD" -> method <> "GET" ->
  isStaticPage components = true \/ isSSG_of this components = true ->
  methodNotAllowed this pathname method components = true.
Proof.
  intros H404 H500 Herr Hhead Hget Hstatic. unfold methodNotAllowed.
  apply String.eqb_neq in H404, H500, Herr, Hhead, Hget.
  rewrite H404, H500, Herr, Hhead, Hget. cbn.
  destruct Hstatic as [-> | ->]; [reflexivity|by rewrite orb_true_r].
Qed.

Lemma modify_run f s :
  modify f s = (Ret tt, {| mut := f (mut s); trace := trace s |}).
Proof. reflexivity. Qed.

Lemma when_modify b f s :
  when b (modify f) s
  = (Ret tt, {| mut := if b then f (mut s) else mut s; trace := trace s |}).
Proof. destruct b, s; reflexivity. Qed.

(** [renderError] with [setHeaders] enters the error-page pipeline with the
    status the response has at that moment. *)
Lemma renderError_run err pathname query s :
  renderError err pathname query true s =
    let m := mut (snd (setHeader "Cache-Control"
                         ["no-cache, no-store, max-age=0, must-revalidate"] s)) in
    (fst (renderErrorPipe err pathname query m),
     {| mut := snd (renderErrorPipe err pathname query m);
        trace := trace s ++ [call_renderErrorPipe (res_statusCode (res (mut s))) pathname] |}).
Proof.
  unfold renderError. run. destruct (renderErrorPipe _ _ _ _) as [o m]. reflexivity.
Qed.

(** C10: a request with a method other than GET and HEAD for a static page
    (a string component or an SSG page) other than [/404], [/500] and
    [/_error] gets the status 405 and the header [Allow: GET, HEAD]; the
    error-page pipeline is entered with them, the page itself is not
    rendered and [null] is returned. *)
Theorem static_page_method_not_allowed ctx result s :
  ctx_pathname ctx <> "/404" ->
  ctx_pathname ctx <> "/500" ->
  ctx_pathname ctx <> "/_error" ->
  req_method (ctx_req ctx) <> "HEAD" ->
  req_method (ctx_req ctx) <> "GET" ->
  isStaticPage (components result) = true \/ isSSG_of this (components result) = true ->
  exists m405,
    res_statusCode (res m405) = 405
    /\ res_headers (res m405) !! "Allow" = Some ["GET"; "HEAD"]
    /\ renderToResponseWithComponents this ctx result s =
         (match fst (renderErrorPipe None (ctx_pathname ctx) (Some ∅) m405) with
          | Ret _ => Ret None
          | Throw e => Throw e
          end,
          {| mut := snd (renderErrorPipe None (ctx_pathname ctx) (Some ∅) m405);
             trace := trace s ++ [call_renderErrorPipe 405 (ctx_pathname ctx)] |}).
Proof.
  intros H404 H500 Herr Hhead Hget Hstatic.
  pose proof (methodNotAllowed_true _ _ _ H404 H500 Herr Hhead Hget Hstatic) as Hguard.
  unfold renderToResponseWithComponents, prepare. rewrite Hguard.
  cbv beta delta [bind gets ret set_statusCode setHeader delete_query].
  cbn beta iota zeta.
  repeat (rewrite ?modify_run, ?when_modify; cbn [mut trace]).
  rewrite renderError_run. cbv zeta. cbn [fst snd mut trace].
  match goal with
  | |- context [renderErrorPipe None _ _ ?m] => exists m
  end.
  split; [reflexivity|]. split.
  { cbn. rewrite lookup_insert_ne by done. apply lookup_insert_eq. }
  destruct (renderErrorPipe _ _ _ _) as [[[]|e] m']; reflexivity.
Qed.

(** A miss that ends in [NoFallbackError] makes the whole page render throw
    it, when the store runs the generator and lets its error through. *)
Lemma renderToResponseWithComponents_no_fallback ctx result s sc s1 :
  prepare this ctx result s = (Ret (inr sc), s1) ->
  responseCache_get (ssgCacheKey sc) (responseGenerator this sc)
    (isManualRevalidate sc)
    (bool_decide (header (req sc) "purpose" = Some "prefetch")) s1
  = responseGenerator this sc false false s1 ->
  responseGenerator this sc false false s1 = (Throw NoFallbackError, s1) ->
  renderToResponseWithComponents this ctx result s = (Throw NoFallbackError, s1).
Proof.
  intros Hp Hget Hgen.
  rewrite (renderToResponseWithComponents_scope _ _ _ _ _ Hp).
  cbv beta delta [bind]. rewrite Hget, Hgen. reflexivity.
Qed.

(** [renderPageComponent] answers [false] for a candidate whose render
    throws [NoFallbackError], unless it was asked to let the error through. *)
Lemma renderPageComponent_declines ctx result s s0 s1 :
  findPage (componentPage this (ctx_pathname ctx)) (default ∅ (ctx_params ctx)) s
  = (Ret (Some result), s0) ->
  renderToResponseWithComponents this ctx result s0 = (Throw NoFallbackError, s1) ->
  renderPageComponent this ctx false s = (Ret None, s1).
Proof.
  intros Hfind Hrender. unfold renderPageComponent.
  cbv beta delta [bind try_catch]. rewrite Hfind. cbn beta iota. rewrite Hrender.
  reflexivity.
Qed.

(** When every candidate answered [false], the dispatcher sets the status to
    404 and renders the error page, unless a data request is answered for a
    catch-all middleware. *)
Lemma renderToResponse_exhausted_404 ctx s s2 :
  truthy (ctx_query (mut s) !! "_nextBubbleNoFallback") = false ->
  tryCandidates this ctx false
    (snd (modify (with_ctx_query (delete "_nextBubbleNoFallback")) s)) = (Ret None, s2) ->
  catchAllMiddleware this && truthy (header (ctx_req ctx) "x-nextjs-data")
  && (Z.eqb (res_statusCode (res (mut s2))) 0
      || Z.eqb (res_statusCode (res (mut s2))) 200
      || Z.eqb (res_statusCode (res (mut s2))) 404) = false ->
  renderToResponse this ctx s
  = renderErrorToResponse this ctx None (snd (set_statusCode 404 s2)).
Proof.
  intros Hbubble Htry Hmw. unfold renderToResponse.
  cbv beta delta [bind gets try_catch]. cbn beta iota zeta. rewrite Hbubble.
  rewrite modify_run in *. cbn [snd] in Htry. rewrite Htry. cbn beta iota.
  unfold renderToResponse_exhausted.
  cbv beta delta [bind gets]. cbn beta iota zeta. rewrite Hmw. reflexivity.
Qed.

(** C3 (amended): on a production server outside minimal mode, the miss
    handler of a dynamic page whose fallback is declared [false] raises
    [NoFallbackError] when no response was sent yet and the request is
    neither a preview nor a manual revalidation restricted to generated
    paths; the dispatcher takes that candidate as not matching; and when all
    candidates are exhausted, [NoFallbackError] is not to be bubbled and no
    data request is answered for a catch-all middleware, it sets the status
    to 404 and renders the error page. *)
Theorem no_fallback_ends_in_404 candidate result sa sb sc s1 ctx s s2 :
  findPage (componentPage this (ctx_pathname candidate))
           (default ∅ (ctx_params candidate)) sa
  = (Ret (Some result), sb) ->
  prepare this candidate result sb = (Ret (inr sc), s1) ->
  responseCache_get (ssgCacheKey sc) (responseGenerator this sc)
    (isManualRevalidate sc)
    (bool_decide (header (req sc) "purpose" = Some "prefetch")) s1
  = responseGenerator this sc false false s1 ->
  getStaticPaths_override this = None ->
  hasStaticPaths sc = false
  \/ prerenderManifest_dynamicRoutes this !! pathname sc = Some fallback_false ->
  dev this = false ->
  minimalMode this = false ->
  truthy (ssgCacheKey sc) = true ->
  res_sent (res (mut s1)) = false ->
  isPreviewMode sc = false ->
  isDynamicRoute (pathname sc) = true ->
  isManualRevalidate sc && revalidateOnlyGenerated sc = false ->
  truthy (ctx_query (mut s) !! "_nextBubbleNoFallback") = false ->
  tryCandidates this ctx false
    (snd (modify (with_ctx_query (delete "_nextBubbleNoFallback")) s)) = (Ret None, s2) ->
  catchAllMiddleware this && truthy (header (ctx_req ctx) "x-nextjs-data")
  && (Z.eqb (res_statusCode (res (mut s2))) 0
      || Z.eqb (res_statusCode (res (mut s2))) 200
      || Z.eqb (res_statusCode (res (mut s2))) 404) = false ->
  responseGenerator this sc false false s1 = (Throw NoFallbackError, s1)
  /\ renderPageComponent this candidate false sa = (Ret None, s1)
  /\ exists s404,
       res_statusCode (res (mut s404)) = 404
       /\ trace s404 = trace s2
       /\ renderToResponse this ctx s = renderErrorToResponse this ctx None s404.
Proof.
  intros Hfind Hp Hget Ho Hdecl Hdev Hmin Hkey Hsent Hprev Hdyn Hman Hbubble Htry Hmw.
  pose proof (no_fallback_raised this sc s1 Ho Hdecl Hdev Hmin Hkey Hsent Hprev Hdyn Hman)
    as Hgen.
  split; [exact Hgen|]. split.
  - eapply renderPageComponent_declines; [exact Hfind|].
    by apply (renderToResponseWithComponents_no_fallback _ _ _ sc).
  - exists (snd (set_statusCode 404 s2)). split; [reflexivity|]. split; [reflexivity|].
    by apply renderToResponse_exhausted_404.
Qed.

End PipelineProperties.

(** ** The pipeline on the small deployment *)

(** C1 for [/blog/hello] with [fallback: 'blocking'] and a renderer that
    produces no markup: the generator, and with it the store, hands back
    [null] for the key [/blog/hello]. *)
Lemma missing_entry_raises_invariant_witness :
  fst (renderToResponseWithComponents (C := Demo.collaborators Demo.renderedNothing)
         (Demo.server fallback_null false false)
         (Demo.context (Demo.request "GET" []) "/blog/[slug]")
         {| components := Demo.blogPage; found_query := ∅ |}
         (Demo.start "/blog/hello" []))
  = Throw (Error "invariant: cache entry required but not generated").
Proof.
  edestruct (missing_entry_raises_invariant (C := Demo.collaborators Demo.renderedNothing)
               (Demo.server fallback_null false false)
               (Demo.context (Demo.request "GET" []) "/blog/[slug]")
               {| components := Demo.blogPage; found_query := ∅ |}
               (Demo.start "/blog/hello" []))
    as [Hrun _].
  - vm_compute. reflexivity.
  - vm_compute. reflexivity.
  - reflexivity.
  - reflexivity.
  - rewrite Hrun. reflexivity.
Defined.

(** C1 as stated fails for a manual revalidation restricted to generated
    paths: the key is [/blog/hello], the store hands back [null], and
    [renderToResponseWithComponents] returns [null] without an error. *)
Lemma missing_entry_manual_revalidate_returns_null :
  let C := Demo.collaborators (Demo.rendered rev_undefined) in
  let this := Demo.server fallback_null false false in
  let ctx :=
    Demo.context (Demo.request "GET" [("x-prerender-revalidate", "id");
                                      ("x-prerender-revalidate-if-generated", "1")])
                 "/blog/[slug]" in
  let result := {| components := Demo.blogPage; found_query := ∅ |} in
  exists sc s1,
    prepare this ctx result (Demo.start "/blog/hello" []) = (Ret (inr sc), s1)
    /\ ssgCacheKey sc = Some "/blog/hello"
    /\ fst (responseCache_get (ssgCacheKey sc) (responseGenerator this sc)
              (isManualRevalidate sc)
              (bool_decide (header (req sc) "purpose" = Some "prefetch")) s1)
       = Ret None
    /\ fst (renderToResponseWithComponents this ctx result (Demo.start "/blog/hello" []))
       = Ret None.
Proof.
  cbv zeta. do 2 eexists. split; [vm_compute; reflexivity|].
  vm_compute. repeat split; reflexivity.
Qed.

(** C9 for a data request and for a page request of [/blog/hello]. *)
Lemma page_entry_round_trip_witness :
  let C := Demo.collaborators (Demo.rendered (rev_seconds 60)) in
  let this := Demo.server fallback_null false false in
  let ctx := Demo.context (Demo.request "GET" []) "/blog/[slug]" in
  (exists payload,
     fst (renderToResponseWithComponents this ctx
            {| components := Demo.blogPage; found_query := {["__nextDataReq" := "1"]} |}
            (Demo.start "/_next/data/BUILD/blog/hello.json" []))
     = Ret (Some payload)
     /\ type payload = json_type
     /\ body payload = fromStatic "{slug:'hello';}")
  /\ (exists payload,
        fst (renderToResponseWithComponents this ctx
               {| components := Demo.blogPage; found_query := ∅ |}
               (Demo.start "/blog/hello" []))
        = Ret (Some payload)
        /\ type payload = html_type
        /\ body payload = fromStatic "<article>hello</article>").
Proof.
  cbv zeta. split.
  - edestruct (page_entry_round_trip (C := Demo.collaborators (Demo.rendered (rev_seconds 60)))
                 (Demo.server fallback_null false false)
                 (Demo.context (Demo.request "GET" []) "/blog/[slug]")
                 {| components := Demo.blogPage; found_query := {["__nextDataReq" := "1"]} |}
                 (Demo.start "/_next/data/BUILD/blog/hello.json" []))
      as (payload & s3 & Hrun & Hdata & _).
    + vm_compute. reflexivity.
    + vm_compute. reflexivity.
    + reflexivity.
    + exists payload. rewrite Hrun. split; [reflexivity|]. exact (Hdata eq_refl).
  - edestruct (page_entry_round_trip (C := Demo.collaborators (Demo.rendered (rev_seconds 60)))
                 (Demo.server fallback_null false false)
                 (Demo.context (Demo.request "GET" []) "/blog/[slug]")
                 {| components := Demo.blogPage; found_query := ∅ |}
                 (Demo.start "/blog/hello" []))
      as (payload & s3 & Hrun & _ & Hpage).
    + vm_compute. reflexivity.
    + vm_compute. reflexivity.
    + reflexivity.
    + exists payload. rewrite Hrun. split; [reflexivity|]. exact (Hpage eq_refl).
Defined.

(** C10 for a POST to [/blog/hello]. *)
Lemma static_page_method_not_allowed_witness :
  let run :=
    renderToResponseWithComponents (C := Demo.collaborators (Demo.rendered rev_undefined))
      (Demo.server fallback_null false false)
      (Demo.context (Demo.request "POST" []) "/blog/[slug]")
      {| components := Demo.blogPage; found_query := ∅ |}
      (Demo.start "/blog/hello" []) in
  fst run = Ret None
  /\ trace (snd run) = [call_renderErrorPipe 405 "/blog/[slug]"].
Proof.
  destruct (static_page_method_not_allowed
              (C := Demo.collaborators (Demo.rendered rev_undefined))
              (Demo.server fallback_null false false)
              (Demo.context (Demo.request "POST" []) "/blog/[slug]")
              {| components := Demo.blogPage; found_query := ∅ |}
              (Demo.start "/blog/hello" []))
    as (m405 & _ & _ & Hrun); [done|done|done|done|done|right; reflexivity|].
  cbv zeta. rewrite Hrun. split; reflexivity.
Defined.

(** C4 for a preview request of [/blog/hello]. *)
Lemma preview_mode_bypasses_cache_witness :
  exists sc,
    scopeOf (C := Demo.collaborators (Demo.rendered rev_undefined))
      (Demo.server fallback_null false false)
      (Demo.context (Demo.request "GET" [("cookie", "__prerender_bypass=id")]) "/blog/[slug]")
      Demo.blogPage false false None None None "/blog/hello"
    = Ret sc
    /\ isPreviewMode sc = true
    /\ ssgCacheKey sc = None.
Proof.
  eexists. split; [vm_compute; reflexivity|]. split; [reflexivity|].
  eapply (preview_mode_bypasses_cache (C := Demo.collaborators (Demo.rendered rev_undefined))
            (Demo.server fallback_null false false)
            (Demo.context (Demo.request "GET" [("cookie", "__prerender_bypass=id")])
                          "/blog/[slug]")
            Demo.blogPage false false None None None "/blog/hello").
  - vm_compute. reflexivity.
  - reflexivity.
  - reflexivity.
Defined.

(** C4 as stated fails on the statically generated [/404] page: rendered for
    a request in preview mode, its cache key is [/404]. *)
Lemma preview_mode_status_page_has_key :
  exists sc,
    scopeOf (C := Demo.collaborators (Demo.rendered rev_undefined))
      (Demo.server fallback_null false false)
      (Demo.context (Demo.request "GET" [("cookie", "__prerender_bypass=id")]) "/404")
      Demo.notFoundPage false false None None None "/blog/missing"
    = Ret sc
    /\ isPreviewMode sc = true
    /\ ssgCacheKey sc = Some "/404".
Proof. eexists. split; [vm_compute; reflexivity|]. split; reflexivity. Qed.

(** C5 for [/404] under the locale [en], reached from [/blog/missing]. *)
Lemma status_page_cache_key_witness :
  normalizeCacheKey (C := Demo.collaborators (Demo.rendered rev_undefined)) "/404"
    (deriveCacheKey "/404" true true false false (Some "en") None "/blog/missing")
  = Ret (Some "/en/404").
Proof.
  destruct (status_page_cache_key (C := Demo.collaborators (Demo.rendered rev_undefined))
              "/404" true false false (Some "en") None "/blog/missing"
              (or_introl eq_refl))
    as (_ & _ & Hkey).
  apply Hkey. intros seg Hseg. vm_compute in Hseg.
  repeat (apply elem_of_cons in Hseg as [-> | Hseg]; [split; reflexivity|]).
  by apply elem_of_nil in Hseg.
Defined.

(** C3 for [/blog/hello] on a production server whose manifest declares
    [fallback: false] for [/blog/[slug]]: the literal page does not exist,
    the dynamic candidate ends in [NoFallbackError], and the dispatcher
    renders the error page with the status 404. *)
Lemma no_fallback_ends_in_404_witness :
  let C := Demo.collaborators (Demo.rendered rev_undefined) in
  let this := Demo.server fallback_false false false in
  let ctx := Demo.context (Demo.request "GET" []) "/blog/hello" in
  exists s404,
    res_statusCode (res (mut s404)) = 404
    /\ renderToResponse this ctx (Demo.start "/blog/hello" [])
       = renderErrorToResponse this ctx None s404.
Proof.
  cbv zeta.
  edestruct (no_fallback_ends_in_404 (C := Demo.collaborators (Demo.rendered rev_undefined))
               (Demo.server fallback_false false false)
               (with_params {["slug" := "hello"]}
                  (with_pathname "/blog/[slug]"
                     (Demo.context (Demo.request "GET" []) "/blog/hello"))))
    with (sa := snd (renderPageComponent
                       (C := Demo.collaborators (Demo.rendered rev_undefined))
                       (Demo.server fallback_false false false)
                       (Demo.context (Demo.request "GET" []) "/blog/hello") false
                       (Demo.start "/blog/hello" [])))
         (ctx := Demo.context (Demo.request "GET" []) "/blog/hello")
         (s := Demo.start "/blog/hello" [])
    as (_ & _ & s404 & H404 & _ & Hrun).
  - vm_compute. reflexivity.
  - vm_compute. reflexivity.
  - reflexivity.
  - reflexivity.
  - right. reflexivity.
  - reflexivity.
  - reflexivity.
  - reflexivity.
  - reflexivity.
  - reflexivity.
  - reflexivity.
  - reflexivity.
  - reflexivity.
  - vm_compute. reflexivity.
  - reflexivity.
  - exists s404. split; [exact H404|exact Hrun].
Defined.

(** C3 as stated fails in minimal mode: the same miss renders the page, no
    [NoFallbackError] is raised and the response is not a 404. *)
Lemma no_fallback_minimal_mode_renders :
  let C := Demo.collaborators (Demo.rendered rev_undefined) in
  let this := Demo.server fallback_false true false in
  let miss :=
    responseGenerator this (Demo.blogScope (Demo.request "GET" []) false false false false)
      false false (Demo.start "/blog/hello" []) in
  let run :=
    renderToResponse this (Demo.context (Demo.request "GET" []) "/blog/hello")
      (Demo.start "/blog/hello" []) in
  fst miss
  = Ret (Some (mkEntry (rev_seconds 1)
                 (Some (PAGE (fromStatic "<article>hello</article>")
                             (JsObject [("slug", JsString "hello")])))))
  /\ (exists payload,
        fst run = Ret (Some payload)
        /\ body payload = fromStatic "<article>hello</article>")
  /\ res_statusCode (res (mut (snd run))) = 200.
Proof.
  cbv zeta. split; [vm_compute; reflexivity|]. split.
  - eexists. split; vm_compute; reflexivity.
  - vm_compute. reflexivity.
Qed.

(** * Further properties of the miss handler *)

Section MissHandlerProperties.
Context `{C : Collaborators}.
Variable this : Server.
Variable sc : Scope.


Lemma length_append (s t : string) :
  String.length (s +:+ t) = (String.length s + String.length t)%nat.
Proof.
  induction s as [|c s IH]; [reflexivity|].
  change (String c s +:+ t) with (String c (s +:+ t)). cbn. by f_equal.
Qed.

Lemma substring_append (s t : string) : String.substring 0 (String.length s) (s +:+ t) = s.
Proof.
  induction s as [|c s IH]; [by destruct t|].
  change (String c s +:+ t) with (String c (s +:+ t)). cbn. by f_equal.
Qed.

Lemma ends_with_append suffix s : ends_with suffix (s +:+ suffix) = true.
Proof.
  induction s as [|c s IH].
  - change ("" +:+ suffix) with suffix.
    destruct suffix; cbn; [reflexivity|].
    by rewrite Ascii.eqb_refl, String.eqb_refl.
  - change (String c s +:+ suffix) with (String c (s +:+ suffix)).
    cbn [ends_with]. rewrite IH. apply orb_true_r.
Qed.

(** [(s + suffix).replace(/suffix$/, '')] is [s]. *)
Lemma strip_suffix_append suffix s : strip_suffix suffix (s +:+ suffix) = s.
Proof.
  unfold strip_suffix. rewrite ends_with_append, length_append.
  replace (String.length s + String.length suffix - String.length suffix)%nat
    with (String.length s) by lia.
  apply substring_append.
Qed.





End MissHandlerProperties.

(** * Properties of [doRender] *)

Section DoRenderProperties.
Context `{C : Collaborators}.
Variable this : Server.
Variable sc : Scope.

(** [doRender] is one call of one renderer, followed by the classification
    of what it produced. *)
Lemma doRender_run s :
  doRender this sc s =
    let '(o, m) := callRenderer this sc (mut s) in
    let s' := {| mut := m; trace := trace s ++ [call_doRender; rendererCall sc] |} in
    match o with
    | Throw e => (Throw e, s')
    | Ret out =>
        (Ret (if out_isNotFound out then Some (mkEntry (out_revalidate out) None)
              else if out_isRedirect out
              then Some (mkEntry (out_revalidate out) (Some (REDIRECT (out_pageData out))))
              else match out_html out with
                   | None => None
                   | Some body =>
                       Some (mkEntry (out_revalidate out)
                                     (Some (PAGE body (out_pageData out))))
                   end), s')
    end.
Proof.
  unfold doRender, callRenderer, rendererCall, renderOptsOf, origQueryOf. run.
  destruct (isLikeServerless sc).
  - destruct (renderReqToHTML _ _) as [[out|e] m]; cbn; rewrite <- app_assoc;
      [|reflexivity].
    destruct (out_isNotFound out); [reflexivity|].
    destruct (out_isRedirect out); [reflexivity|].
    by destruct (out_html out).
  - destruct (renderHTML _ _ _ _) as [[out|e] m]; cbn; rewrite <- app_assoc;
      [|reflexivity].
    destruct (out_isNotFound out); [reflexivity|].
    destruct (out_isRedirect out); [reflexivity|].
    by destruct (out_html out).
Qed.

(** X5: [doRender] calls exactly one renderer, once: [renderReqToHTML] of a
    serverless bundle, [renderHTML] otherwise.  Whatever the outcome, the
    request is left as that renderer left it, and an error of the renderer is
    the error of [doRender]. *)
Theorem doRender_calls_one_renderer s :
  snd (doRender this sc s)
  = {| mut := snd (callRenderer this sc (mut s));
       trace := trace s ++ [call_doRender; rendererCall sc] |}
  /\ (forall e, fst (callRenderer this sc (mut s)) = Throw e ->
                fst (doRender this sc s) = Throw e).
Proof.
  rewrite doRender_run.
  destruct (callRenderer this sc (mut s)) as [[out|e] m]; cbn; split;
    [reflexivity|discriminate|reflexivity|congruence].
Qed.

(** X6: what [doRender] makes of a render.  [isNotFound] wins over
    [isRedirect] and over any markup: the entry has a [null] value and keeps
    the renderer's [revalidate].  A redirect is cached with the page data as
    its props, markup or not.  A render that is neither and has no markup
    gives no entry at all. *)
Theorem doRender_classifies s out m :
  callRenderer this sc (mut s) = (Ret out, m) ->
  let s' := {| mut := m; trace := trace s ++ [call_doRender; rendererCall sc] |} in
  (out_isNotFound out = true ->
   doRender this sc s = (Ret (Some (mkEntry (out_revalidate out) None)), s'))
  /\ (out_isNotFound out = false -> out_isRedirect out = true ->
      doRender this sc s
      = (Ret (Some (mkEntry (out_revalidate out) (Some (REDIRECT (out_pageData out))))), s'))
  /\ (out_isNotFound out = false -> out_isRedirect out = false -> out_html out = None ->
      doRender this sc s = (Ret None, s')).
Proof.
  intros Hcall s'. rewrite doRender_run, Hcall. cbn zeta. fold s'.
  repeat split.
  - by intros ->.
  - by intros -> ->.
  - by intros -> -> ->.
Qed.

(** X7: the [resolvedUrl] handed to [renderHTML] carries the query of the
    original URL without the params of the dynamic route, and
    [resolvedAsPath] is that same URL unless the page has
    [getServerSideProps] or [getInitialProps]. *)
Theorem resolved_url_drops_route_params m ps :
  params sc = Some ps ->
  (forall k, is_Some (ps !! k) -> origQueryOf sc m !! k = None)
  /\ (forall k, ps !! k = None ->
                origQueryOf sc m !! k = url_query (parseUrl (url m)) !! k)
  /\ (hasServerProps sc || hasGetInitialProps sc = false ->
      opt_resolvedAsPath (renderOptsOf this sc m) = opt_resolvedUrl (renderOptsOf this sc m)).
Proof.
  intros Hps. unfold origQueryOf. rewrite Hps. repeat split.
  - intros k [v Hv]. by rewrite lookup_difference, Hv.
  - intros k Hk. by rewrite lookup_difference, Hk.
  - intros Hprops. unfold renderOptsOf. cbn. by rewrite Hprops.
Qed.

End DoRenderProperties.

(** * Properties of the answer built from a cache entry *)

Section ServeProperties.
Context `{C : Collaborators}.
Variable this : Server.
Variable sc : Scope.




Lemma prefix_slash_append a b :
  String.prefix "/" a = true -> String.prefix "/" (a +:+ b) = true.
Proof.
  destruct a as [|c a]; [discriminate|]. intros Hp.
  apply String.prefix_correct in Hp. apply String.prefix_correct.
  change (String c a +:+ b) with (String c (a +:+ b)).
  cbn in *. injection Hp as -> _. f_equal. by destruct (a +:+ b).
Qed.

Lemma serveCacheEntry_page_state entry html pageData s :
  value entry = Some (PAGE html pageData) ->
  snd (serveCacheEntry this sc (Some entry) s)
  = if isSSG sc && negb (minimalMode this)
    then snd (setHeader "x-nextjs-cache"
                [if isManualRevalidate sc then "REVALIDATED"
                 else if isMiss entry then "MISS"
                 else if isStale entry then "STALE"
                 else "HIT"] s)
    else s.
Proof.
  intros Hv. unfold serveCacheEntry. rewrite Hv. run.
  by destruct (isSSG sc && negb (minimalMode this)).
Qed.

(** X10: serving a [PAGE] entry changes nothing of the request but the
    header [x-nextjs-cache], which is written for SSG pages outside minimal
    mode only; its value is [REVALIDATED] for a manual revalidation, else
    [MISS] for a miss, else [STALE] for a stale entry, else [HIT].  The
    [revalidateOptions] of the payload: none when the entry has no
    [revalidate] (a skeleton), none in development unless the page has
    [getServerSideProps] and the request is not a data request; otherwise
    they carry the entry's [revalidate], are [stateful] exactly for pages
    that are not SSG and [private] in preview mode and for [/404]. *)
Theorem page_entry_payload entry html pageData s :
  value entry = Some (PAGE html pageData) ->
  exists payload,
    serveCacheEntry this sc (Some entry) s
    = (Ret (Some payload),
       if isSSG sc && negb (minimalMode this)
       then snd (setHeader "x-nextjs-cache"
                   [if isManualRevalidate sc then "REVALIDATED"
                    else if isMiss entry then "MISS"
                    else if isStale entry then "STALE"
                    else "HIT"] s)
       else s)
    /\ (revalidate entry = rev_undefined -> revalidateOptions payload = None)
    /\ (dev this = true -> hasServerProps sc && negb (isDataReq sc) = false ->
        revalidateOptions payload = None)
    /\ (revalidate entry <> rev_undefined ->
        dev this = false \/ hasServerProps sc && negb (isDataReq sc) = true ->
        revalidateOptions payload
        = Some {| ro_private := isPreviewMode sc || String.eqb (pathname sc) "/404";
                  ro_stateful := negb (isSSG sc);
                  ro_revalidate := revalidate entry |}).
Proof.
  intros Hv. rewrite <- (serveCacheEntry_page_state _ _ _ _ Hv).
  unfold serveCacheEntry. rewrite Hv. run.
  destruct (isSSG sc && negb (minimalMode this)); cbn beta iota;
    (eexists; split; [reflexivity|]; cbn [revalidateOptions]; repeat split).
  all: try (by intros ->).
  all: try (intros -> ->; cbn; by destruct (revalidate entry)).
  all: intros Hrev [-> | ->]; cbn; rewrite ?orb_true_r, ?andb_true_r;
    by destruct (revalidate entry).
Qed.


(** X12: [handleRedirect] sends a destination that does not start with [/]
    as it is.  A destination that does is prefixed with the configured
    [basePath], unless there is none or the props opt out with
    [__N_REDIRECT_BASE_PATH: false], and its repeated slashes are
    normalized.  The status is that of [getRedirectStatus] and the body is
    the destination. *)
Theorem handleRedirect_destination props destination s :
  js_get (js_get props "pageProps") "__N_REDIRECT" = JsString destination ->
  let statusCode :=
    getRedirectStatus (js_get (js_get props "pageProps") "__N_REDIRECT_STATUS") in
  let sent to :=
    (Ret tt, snd (send_body to (snd (modify (with_res (res_redirect to statusCode)) s)))) in
  (String.prefix "/" destination = false ->
   handleRedirect this props s = sent destination)
  /\ (String.prefix "/" destination = true ->
      basePath this = ""
      \/ js_get (js_get props "pageProps") "__N_REDIRECT_BASE_PATH" = JsBool false ->
      handleRedirect this props s = sent (normalizeRepeatedSlashes destination))
  /\ (String.prefix "/" destination = true ->
      String.prefix "/" (basePath this) = true ->
      js_get (js_get props "pageProps") "__N_REDIRECT_BASE_PATH" <> JsBool false ->
      handleRedirect this props s
      = sent (normalizeRepeatedSlashes (basePath this +:+ destination))).
Proof.
  intros Hdest statusCode sent. unfold handleRedirect. rewrite Hdest. fold statusCode.
  repeat split.
  - intros Hext. rewrite Hext, andb_false_r, Hext. reflexivity.
  - intros Hint [Hbase | Hflag].
    + rewrite Hbase. cbn [String.eqb negb andb]. rewrite Hint. reflexivity.
    + rewrite Hflag. cbn [negb]. rewrite andb_false_r. cbn [andb]. rewrite Hint.
      reflexivity.
  - intros Hint Hbase Hflag.
    assert (Hne : String.eqb (basePath this) "" = false).
    { destruct (basePath this); [discriminate|reflexivity]. }
    assert (Hopt : match js_get (js_get props "pageProps") "__N_REDIRECT_BASE_PATH" with
                   | JsBool false => true
                   | _ => false
                   end = false).
    { destruct (js_get (js_get props "pageProps") "__N_REDIRECT_BASE_PATH")
        as [| |[]| | |]; congruence. }
    rewrite Hne, Hopt, Hint. cbn [negb andb].
    rewrite (prefix_slash_append _ _ Hbase). reflexivity.
Qed.

End ServeProperties.

(** * Properties of the dispatcher *)

Section DispatcherProperties.
Context `{C : Collaborators}.
Variable this : Server.

(** Without fallback error components the [catch] of
    [renderErrorToResponse] always ends in a payload. *)
Lemma renderErrorToResponse_returns ctx err s :
  getFallbackErrorComponents = None ->
  exists r s', renderErrorToResponse this ctx err s = (Ret r, s').
Proof.
  intros Hnone. unfold renderErrorToResponse.
  unfold try_catch at 1.
  match goal with
  | |- context [match ?body s with _ => _ end] => destruct (body s) as [[r|e] s1]
  end.
  - by do 2 eexists.
  - rewrite Hnone. run. destruct (negb (isWrappedBuildError e)); by do 2 eexists.
Qed.

(** X13: what [renderPageComponent] does with an error of the page render:
    [NoFallbackError] makes it answer [false] unless it was asked to bubble
    it; any other error is thrown on.  When no components are found it
    answers [false] and nothing is rendered. *)
Theorem renderPageComponent_errors ctx bubbleNoFallback s :
  (forall result s0 e s1,
     findPage (componentPage this (ctx_pathname ctx)) (default ∅ (ctx_params ctx)) s
     = (Ret (Some result), s0) ->
     renderToResponseWithComponents this ctx result s0 = (Throw e, s1) ->
     renderPageComponent this ctx bubbleNoFallback s
     = if isNoFallbackError e && negb bubbleNoFallback
       then (Ret None, s1) else (Throw e, s1))
  /\ (forall s0,
        findPage (componentPage this (ctx_pathname ctx)) (default ∅ (ctx_params ctx)) s
        = (Ret None, s0) ->
        renderPageComponent this ctx bubbleNoFallback s = (Ret None, s0)).
Proof.
  split.
  - intros result s0 e s1 Hfind Hrender. unfold renderPageComponent.
    cbv beta delta [bind try_catch]. rewrite Hfind. cbn beta iota. rewrite Hrender.
    cbn beta iota. by destruct (isNoFallbackError e), bubbleNoFallback.
  - intros s0 Hfind. unfold renderPageComponent.
    cbv beta delta [bind]. by rewrite Hfind.
Qed.


(** X15: in production, outside minimal mode (or on the edge runtime) and
    without fallback error components, [renderToResponse] throws nothing but
    a [MissingStaticPage] and a [NoFallbackError] it was asked to bubble:
    every other error ends in a payload. *)
Theorem renderToResponse_contains_errors ctx s e s' :
  dev this = false ->
  minimalMode this = false \/ NEXT_RUNTIME_edge this = true ->
  getFallbackErrorComponents = None ->
  renderToResponse this ctx s = (Throw e, s') ->
  isMissingStaticPage e = true
  \/ (e = NoFallbackError
      /\ truthy (ctx_query (mut s) !! "_nextBubbleNoFallback") = true).
Proof.
  intros Hdev Hmin Hnone. unfold renderToResponse.
  cbv beta delta [bind gets try_catch]. cbn beta iota zeta. rewrite modify_run.
  set (s0 := {| mut := _; trace := _ |}).
  set (bubble := truthy _).
  assert (Hrethrow : (minimalMode this && negb (NEXT_RUNTIME_edge this) || dev this) = false).
  { rewrite Hdev. destruct Hmin as [-> | ->]; cbn; by rewrite ?andb_false_r. }
  destruct (tryCandidates this ctx bubble s0) as [[[r|]|e0] s1].
  - discriminate.
  - unfold renderToResponse_exhausted.
    cbv beta delta [bind gets]. cbn beta iota zeta.
    match goal with
    | |- context [if ?b then _ else _] => destruct b
    end; [run; discriminate|].
    cbv beta delta [bind set_statusCode]. rewrite modify_run. cbn beta iota.
    match goal with
    | |- context [renderErrorToResponse this ctx None ?st] =>
        destruct (renderErrorToResponse_returns ctx None st Hnone) as (r & s2 & ->)
    end.
    discriminate.
  - unfold renderToResponse_catch.
    destruct (isMissingStaticPage e0) eqn:Hmissing.
    { intros [= <- <-]. by left. }
    destruct (isNoFallbackError e0 && bubble) eqn:Hbubble.
    { intros [= <- <-]. right. apply andb_true_iff in Hbubble as [Hnf Hb].
      split; [by destruct e0|exact Hb]. }
    destruct (isDecodeOrNormalizeError e0).
    { cbv beta delta [bind set_statusCode]. rewrite modify_run. cbn beta iota.
      match goal with
      | |- context [renderErrorToResponse this ctx ?er ?st] =>
          destruct (renderErrorToResponse_returns ctx er st Hnone) as (r & s2 & ->)
      end.
      discriminate. }
    rewrite Hrethrow, andb_false_r.
    cbv beta delta [bind set_statusCode]. rewrite modify_run. cbn beta iota.
    unfold when at 1. destruct (hasPage "/500").
    + cbv beta delta [bind]. rewrite modify_run. cbn beta iota.
      match goal with
      | |- context [renderErrorToResponse this ctx ?er ?st] =>
          destruct (renderErrorToResponse_returns ctx er st Hnone) as (r & s2 & ->)
      end.
      cbn beta iota. rewrite modify_run. cbn beta iota.
      destruct (negb (isWrappedBuildError e0)); run;
        match goal with
        | |- context [renderErrorToResponse this ctx ?er ?st] =>
            destruct (renderErrorToResponse_returns ctx er st Hnone) as (r' & s3 & ->)
        end; discriminate.
    + cbn beta iota delta [ret].
      destruct (negb (isWrappedBuildError e0)); run;
        match goal with
        | |- context [renderErrorToResponse this ctx ?er ?st] =>
            destruct (renderErrorToResponse_returns ctx er st Hnone) as (r' & s3 & ->)
        end; discriminate.
Qed.

(** X16: [renderErrorToResponse] throws nothing when there are no fallback
    error components; and when no error page can even be loaded, because
    [findPageComponents] fails with [e], it logs [e], sets the status to 500
    and answers with the static body "Internal Server Error". *)
Theorem renderErrorToResponse_last_resort ctx err s :
  getFallbackErrorComponents = None ->
  (exists r s', renderErrorToResponse this ctx err s = (Ret r, s'))
  /\ (forall e,
        (forall pathname query params, findPageComponents pathname query params = Throw e) ->
        isWrappedBuildError e = false ->
        exists s',
          renderErrorToResponse this ctx err s
          = (Ret (Some {| type := html_type; body := fromStatic "Internal Server Error";
                          revalidateOptions := None |}), s')
          /\ res_statusCode (res (mut s')) = 500
          /\ last (trace s') = Some (call_logError e)).
Proof.
  intros Hnone. split; [by apply renderErrorToResponse_returns|].
  intros e Hfind Hwrapped. unfold renderErrorToResponse, findPage.
  rewrite Hnone. cbv beta delta [try_catch bind gets extern]. cbn beta iota zeta.
  repeat match goal with
         | |- context [findPageComponents _ _ _] => rewrite Hfind; cbn beta iota
         | |- context [if ?b then _ else _] => destruct b; cbn beta iota delta [ret]
         end.
  all: rewrite Hwrapped; run; eexists; (split; [reflexivity|]);
    (split; [reflexivity|]); cbn; by rewrite last_snoc.
Qed.




(** X19: the dynamic routes are tried in order.  Routes whose matcher does
    not match the pathname are passed over without a call; a route that
    matches and whose page answers [false] is followed by the next ones; the
    first result ends the walk, whatever routes come after it. *)
Theorem dynamic_routes_first_result_wins ctx bubbleNoFallback pre route post params s :
  (forall r, r ∈ pre -> route_match r (ctx_pathname ctx) = None) ->
  route_match route (ctx_pathname ctx) = Some params ->
  let candidate := with_params params (with_pathname (page route) ctx) in
  (forall result s',
     renderPageComponent this candidate bubbleNoFallback s = (Ret (Some result), s') ->
     tryDynamicRoutes this ctx bubbleNoFallback (pre ++ route :: post) s
     = (Ret (Some result), s'))
  /\ (forall s',
        renderPageComponent this candidate bubbleNoFallback s = (Ret None, s') ->
        tryDynamicRoutes this ctx bubbleNoFallback (pre ++ route :: post) s
        = tryDynamicRoutes this ctx bubbleNoFallback post s')
  /\ (forall e s',
        renderPageComponent this candidate bubbleNoFallback s = (Throw e, s') ->
        tryDynamicRoutes this ctx bubbleNoFallback (pre ++ route :: post) s
        = (Throw e, s')).
Proof.
  intros Hpre Hmatch candidate.
  assert (Hskip : tryDynamicRoutes this ctx bubbleNoFallback (pre ++ route :: post) s
                  = tryDynamicRoutes this ctx bubbleNoFallback (route :: post) s).
  { induction pre as [|r pre IH]; [reflexivity|]. cbn [app tryDynamicRoutes].
    rewrite (Hpre r) by set_solver. apply IH. intros r' Hr'. apply Hpre. set_solver. }
  rewrite Hskip. cbn [tryDynamicRoutes]. rewrite Hmatch. fold candidate.
  cbv beta delta [bind ret].
  repeat split; intros; by match goal with H : _ = _ |- _ => rewrite H end.
Qed.

(** X20: when every candidate answered [false] and the request is a data
    request ([x-nextjs-data]) on a server with a catch-all middleware, whose
    status is unset, 200 or 404, the answer is an empty JSON object with the
    status 200 and the header [x-nextjs-matched-path]; no error page is
    rendered. *)
Theorem exhausted_data_request_with_middleware ctx s s2 :
  truthy (ctx_query (mut s) !! "_nextBubbleNoFallback") = false ->
  tryCandidates this ctx false
    (snd (modify (with_ctx_query (delete "_nextBubbleNoFallback")) s)) = (Ret None, s2) ->
  catchAllMiddleware this = true ->
  truthy (header (ctx_req ctx) "x-nextjs-data") = true ->
  res_statusCode (res (mut s2)) = 0 \/ res_statusCode (res (mut s2)) = 200
  \/ res_statusCode (res (mut s2)) = 404 ->
  exists s',
    renderToResponse this ctx s = (Ret None, s')
    /\ res_statusCode (res (mut s')) = 200
    /\ res_body (res (mut s')) = Some "{}"
    /\ res_sent (res (mut s')) = true
    /\ res_headers (res (mut s')) !! "content-type" = Some ["application/json"]
    /\ res_headers (res (mut s')) !! "x-nextjs-matched-path"
       = Some [localePrefix (ctx_query (mut s2) !! "__nextLocale") +:+ ctx_pathname ctx]
    /\ trace s' = trace s2.
Proof.
  intros Hbubble Htry Hmw Hdata Hcode. unfold renderToResponse.
  cbv beta delta [bind gets try_catch]. cbn beta iota zeta. rewrite Hbubble.
  rewrite modify_run in *. cbn [snd] in Htry. rewrite Htry. cbn beta iota.
  unfold renderToResponse_exhausted.
  cbv beta delta [bind gets]. cbn beta iota zeta. rewrite Hmw, Hdata.
  replace (Z.eqb (res_statusCode (res (mut s2))) 0
           || Z.eqb (res_statusCode (res (mut s2))) 200
           || Z.eqb (res_statusCode (res (mut s2))) 404) with true
    by (destruct Hcode as [-> | [-> | ->]]; reflexivity).
  run. eexists. split; [reflexivity|]. cbn.
  repeat split; try reflexivity.
  - apply lookup_insert_eq.
  - rewrite lookup_insert_ne by done. apply lookup_insert_eq.
Qed.

End DispatcherProperties.

(** * Properties of the preparation and of the cache key *)

Section PrepareProperties.
Context `{C : Collaborators}.
Variable this : Server.

(** X21: an automatically statically optimized page, whose component is a
    string, is answered with that string as an ['html'] payload when the
    method is allowed: the cache is not consulted and nothing is rendered. *)
Theorem static_page_is_served_as_is ctx result html s :
  Component (components result) = StaticPage html ->
  methodNotAllowed this (ctx_pathname ctx) (req_method (ctx_req ctx)) (components result)
  = false ->
  exists s',
    renderToResponseWithComponents this ctx result s
    = (Ret (Some {| type := html_type; body := fromStatic html;
                    revalidateOptions := None |}), s')
    /\ trace s' = trace s
    /\ res_sent (res (mut s')) = res_sent (res (mut s)).
Proof.
  intros Hcomponent Hallowed.
  unfold renderToResponseWithComponents, prepare. rewrite Hallowed, Hcomponent.
  cbv beta delta [bind gets ret set_statusCode setHeader delete_query].
  cbn beta iota zeta.
  repeat (rewrite ?modify_run, ?when_modify; cbn [mut trace]).
  eexists. split; [reflexivity|]. split; [reflexivity|]. cbn [mut].
  repeat match goal with
         | |- context [if ?b then _ else _] => destruct b
         end; reflexivity.
Qed.

(** X22: what bypasses the cache.  A page that is not SSG has no cache key
    and is never taken for a manual revalidation; an SSG page never supports
    dynamic HTML; a flight request of a page other than a statically
    generated [/404] or [/500] has no cache key. *)
Theorem cache_bypass ctx components dataReq flight nextLocale nextDefaultLocale amp u sc :
  scopeOf this ctx components dataReq flight nextLocale nextDefaultLocale amp u = Ret sc ->
  (isSSG sc = false ->
   ssgCacheKey sc = None /\ isManualRevalidate sc = false
   /\ revalidateOnlyGenerated sc = false)
  /\ (isSSG sc = true -> supportsDynamicHTML sc = false)
  /\ (isFlightRequest sc = true ->
      (String.eqb (pathname sc) "/404" || String.eqb (pathname sc) "/500") && isSSG sc
      = false ->
      ssgCacheKey sc = None).
Proof.
  intros Hsc. pose proof (scopeOf_key _ _ _ _ _ _ _ _ _ _ Hsc) as Hkey.
  unfold scopeOf in Hsc.
  destruct (isSSG_of this components) eqn:Hssg.
  - destruct (checkIsManualRevalidate (ctx_req ctx)) as [manual onlyGenerated].
    destruct (normalizeCacheKey _ _) as [key|e]; [|discriminate].
    injection Hsc as <-. cbn in *. split; [discriminate|]. split.
    + by destruct (ctx_supportsDynamicHTML ctx).
    + intros Hflight Hstatus. unfold deriveCacheKey in Hkey.
      rewrite Hflight, Hstatus, !orb_true_r in Hkey. cbn in Hkey. congruence.
  - destruct (normalizeCacheKey _ _) as [key|e]; [|discriminate].
    injection Hsc as <-. cbn in *. split; [|split; [discriminate|]].
    + intros _. unfold deriveCacheKey in Hkey. cbn in Hkey.
      rewrite orb_true_r, andb_false_r in Hkey. cbn in Hkey.
      split; [congruence|by split].
    + intros Hflight _. unfold deriveCacheKey in Hkey. cbn in Hkey.
      rewrite orb_true_r, andb_false_r in Hkey. cbn in Hkey. congruence.
Qed.



(** X24: a key whose segments decoding and escaping leave as they are is
    kept by the normalization, but for [/index] of the page [/], which
    becomes [/]: the root page has one key whether it is asked for as [/] or
    as [/index]. *)
Theorem normalized_key_of_plain_segments pathname key :
  key <> "" ->
  (forall seg, seg ∈ split_on "/"%char key ->
     decodeURIComponent seg = Some seg /\ escapePathDelimiters seg true = seg) ->
  normalizeCacheKey pathname (Some key)
  = Ret (Some (if String.eqb key "/index" && String.eqb pathname "/" then "/" else key))
  /\ (pathname = "/" -> key = "/index" -> normalizeCacheKey pathname (Some key) = Ret (Some "/")).
Proof.
  intros Hne Hfixed.
  assert (Hnorm : normalizeCacheKey pathname (Some key)
                  = Ret (Some (if String.eqb key "/index" && String.eqb pathname "/"
                               then "/" else key))).
  { unfold normalizeCacheKey. cbn [truthy default].
    apply String.eqb_neq in Hne. rewrite Hne. cbn [negb].
    rewrite map_opt_fixed.
    - by rewrite join_split.
    - intros seg Hseg. destruct (Hfixed seg Hseg) as [Hdec Hesc].
      rewrite Hdec. cbn. by rewrite Hesc. }
  split; [exact Hnorm|]. intros -> ->. by rewrite Hnorm.
Qed.

End PrepareProperties.

(** * Properties of [pipe] of [build/webpack/config/utils.ts] *)

Section ConfigPipeProperties.
Context {R : Type}.

Lemma config_pipe_throw (fns : list (R -> outcome R)) e :
  fold_left
    (fun (result : outcome R) (next : R -> outcome R) =>
       match result with
       | Ret r => next r
       | Throw e => Throw e
       end)
    fns (Throw e) = Throw e.
Proof. induction fns as [|f fns IH]; [reflexivity|]. exact IH. Qed.

(** X25: [pipe] applies the functions from left to right, each to the result
    of the one before it: piping two lists one after the other is piping
    their concatenation, no function returns the parameter itself, and
    functions that do not fail are composed.  When a function fails, the
    functions after it are not applied and its error is the error of the
    whole. *)
Theorem config_pipe_composes (fns gns : list (R -> outcome R)) (param : R) :
  WebpackConfigUtils.pipe (fns ++ gns) param
  = match WebpackConfigUtils.pipe fns param with
    | Ret r => WebpackConfigUtils.pipe gns r
    | Throw e => Throw e
    end
  /\ WebpackConfigUtils.pipe [] param = Ret param
  /\ (forall pure : list (R -> R),
        WebpackConfigUtils.pipe ((fun f r => Ret (f r)) <$> pure) param
        = Ret (fold_left (fun r f => f r) pure param))
  /\ (forall (f : R -> outcome R) r e,
        WebpackConfigUtils.pipe fns param = Ret r ->
        f r = Throw e ->
        WebpackConfigUtils.pipe (fns ++ f :: gns) param = Throw e).
Proof.
  unfold WebpackConfigUtils.pipe. split; [|split; [reflexivity|split]].
  - rewrite fold_left_app.
    destruct (fold_left _ fns (Ret param)) as [r|e]; [reflexivity|].
    apply config_pipe_throw.
  - intros pure. revert param.
    induction pure as [|f pure IH]; intros param; [reflexivity|]. cbn. apply IH.
  - intros f r e Hfns Hf.
    rewrite fold_left_app, Hfns. cbn. rewrite Hf. apply config_pipe_throw.
Qed.

End ConfigPipeProperties.

(** * Properties of the route tables *)

Section RouteTableProperties.
Context `{C : Collaborators} `{R : RouteCompiler}.
Variable this : Server.

Lemma getAppPathRoutes_acc entries (acc : gmap string (list string)) p :
  fold_left
    (fun (appPathRoutes : gmap string (list string)) (entry : string) =>
       let normalizedPath := or_else (Some (normalizeAppPath entry)) "/" in
       <[normalizedPath := default [] (appPathRoutes !! normalizedPath) ++ [entry]]>
         appPathRoutes)
    entries acc !! p
  = match filter (fun entry => or_else (Some (normalizeAppPath entry)) "/" = p) entries with
    | [] => acc !! p
    | l => Some (default [] (acc !! p) ++ l)
    end.
Proof.
  revert acc. induction entries as [|entry entries IH]; intros acc; [reflexivity|].
  cbn [fold_left]. rewrite IH.
  destruct (decide (or_else (Some (normalizeAppPath entry)) "/" = p)) as [Heq|Hne].
  - rewrite filter_cons_True by exact Heq. cbn zeta. rewrite Heq, lookup_insert_eq.
    cbn [default]. destruct (filter _ entries); [reflexivity|].
    unfold id. by rewrite <- app_assoc.
  - rewrite filter_cons_False by exact Hne. cbn zeta.
    by rewrite lookup_insert_ne.
Qed.

(** X26: [getAppPathRoutes] groups the entries of the app paths manifest by
    their normalized path ([/] when it is empty): under a path are exactly
    the entries that normalize to it, in the order of the manifest, and a
    path no entry normalizes to is absent, so no path has an empty list. *)
Theorem getAppPathRoutes_groups entries p :
  getAppPathRoutes entries !! p
  = match filter (fun entry => or_else (Some (normalizeAppPath entry)) "/" = p) entries with
    | [] => None
    | l => Some l
    end
  /\ (forall l, getAppPathRoutes entries !! p = Some l -> l <> [])
  /\ (forall entry, entry ∈ entries ->
        exists l,
          getAppPathRoutes entries !! or_else (Some (normalizeAppPath entry)) "/" = Some l
          /\ entry ∈ l).
Proof.
  assert (Hchar : forall q,
            getAppPathRoutes entries !! q
            = match filter (fun entry => or_else (Some (normalizeAppPath entry)) "/" = q)
                           entries with
              | [] => None
              | l => Some l
              end).
  { intros q. unfold getAppPathRoutes. rewrite getAppPathRoutes_acc, lookup_empty.
    by destruct (filter _ entries). }
  split; [apply Hchar|]. split.
  - intros l. rewrite Hchar. destruct (filter _ entries); congruence.
  - intros entry Hin. rewrite Hchar.
    assert (Hf : entry ∈ filter (fun e => or_else (Some (normalizeAppPath e)) "/"
                                          = or_else (Some (normalizeAppPath entry)) "/")
                                entries)
      by (by apply list_elem_of_filter).
    destruct (filter _ entries) as [|x l]; [by apply elem_of_nil in Hf|].
    by eexists.
Qed.

Lemma addDynamicRoutes_pages addedPages pages :
  NoDup (page <$> addDynamicRoutes addedPages pages)
  /\ (forall p, p ∈ page <$> addDynamicRoutes addedPages pages
                <-> p ∈ pages /\ isDynamicRoute p = true /\ p ∉ addedPages)
  /\ (page <$> addDynamicRoutes addedPages pages) `sublist_of` pages
  /\ (forall r, r ∈ addDynamicRoutes addedPages pages ->
                route_match r = getRouteMatcher (page r)).
Proof.
  revert addedPages. induction pages as [|p0 pages IH]; intros addedPages.
  - cbn. split; [constructor|]. split; [|split; [constructor|]].
    + intros p. split; [by intros ?%elem_of_nil|by intros [?%elem_of_nil _]].
    + by intros r ?%elem_of_nil.
  - cbn [addDynamicRoutes].
    destruct (bool_decide (p0 ∈ addedPages) || negb (isDynamicRoute p0)) eqn:Hskip.
    + destruct (IH addedPages) as (Hnd & Hin & Hsub & Hm).
      split; [exact Hnd|]. split; [|split; [by constructor|exact Hm]].
      intros p. rewrite Hin, elem_of_cons.
      split; [intros (Hp & Hdyn & Hnot); by split; [right|]|].
      intros ([-> | Hp] & Hdyn & Hnot); [|by split].
      apply orb_true_iff in Hskip as [Hadded | Hstatic].
      * by apply bool_decide_eq_true in Hadded.
      * by rewrite Hdyn in Hstatic.
    + apply orb_false_iff in Hskip as [Hadded Hdyn].
      apply bool_decide_eq_false in Hadded. apply negb_false_iff in Hdyn.
      destruct (IH ({[p0]} ∪ addedPages)) as (Hnd & Hin & Hsub & Hm).
      cbn [fmap list_fmap page]. split; [|split; [|split]].
      * constructor; [|exact Hnd]. rewrite Hin. intros (_ & _ & Hn).
        apply Hn, elem_of_union_l. by apply elem_of_singleton.
      * intros p. rewrite elem_of_cons, Hin, elem_of_cons. split.
        -- intros [-> | (Hp & Hd & Hn)]; [by split; [left|]|].
           split; [by right|]. split; [exact Hd|].
           intros Hp'. by apply Hn, elem_of_union_r.
        -- intros ([-> | Hp] & Hd & Hn); [by left|].
           destruct (decide (p = p0)) as [-> | Hne]; [by left|]. right.
           split; [exact Hp|]. split; [exact Hd|].
           intros [Hp'%elem_of_singleton | Hp']%elem_of_union; [by apply Hne|by apply Hn].
      * by constructor.
      * intros r [-> | Hr]%elem_of_cons; [reflexivity|by apply Hm].
Qed.

(** X27: the table of dynamic routes lists each dynamic page of the sorted
    pages once, in the order [getSortedRoutes] gave them, lists no page that
    is not dynamic, and matches a route with the matcher of its own page. *)
Theorem getDynamicRoutes_table appPathRouteKeys pagesManifestKeys sorted :
  getSortedRoutes
    ((fun page => normalizeLocalePath page (locales <$> i18n this))
       <$> (appPathRouteKeys ++ pagesManifestKeys)) = Ret sorted ->
  exists routes,
    getDynamicRoutes this appPathRouteKeys pagesManifestKeys = Ret routes
    /\ NoDup (page <$> routes)
    /\ (forall p, p ∈ page <$> routes <-> p ∈ sorted /\ isDynamicRoute p = true)
    /\ (page <$> routes) `sublist_of` sorted
    /\ (forall r, r ∈ routes -> route_match r = getRouteMatcher (page r)).
Proof.
  intros Hsorted. unfold getDynamicRoutes. rewrite Hsorted.
  eexists. split; [reflexivity|].
  destruct (addDynamicRoutes_pages ∅ sorted) as (Hnd & Hin & Hsub & Hm).
  split; [exact Hnd|]. split; [|by split].
  intros p. rewrite Hin. split; [by intros (Hp & Hd & _)|].
  intros [Hp Hd]. split; [exact Hp|]. split; [exact Hd|]. apply not_elem_of_empty.
Qed.

End RouteTableProperties.

(** * Properties of [stripNextDataPath] *)

Section DataPathProperties.
Context `{C : Collaborators}.
Variable this : Server.

Lemma substring_skip (s t : string) n :
  String.substring (String.length s) n (s +:+ t) = String.substring 0 n t.
Proof.
  induction s as [|c s IH]; [reflexivity|].
  change (String c s +:+ t) with (String c (s +:+ t)). exact IH.
Qed.

Lemma substring_all (s : string) : String.substring 0 (String.length s) s = s.
Proof. induction s as [|c s IH]; [reflexivity|]. cbn. by f_equal. Qed.

Lemma index_first_occurrence (b pre tail : string) :
  (forall p, (p < String.length pre)%nat ->
     String.substring p (String.length b) (pre +:+ b +:+ tail) <> b) ->
  String.index 0 b (pre +:+ b +:+ tail) = Some (String.length pre).
Proof.
  intros Hfirst.
  assert (Hocc : String.substring (String.length pre) (String.length b) (pre +:+ b +:+ tail) = b)
    by (rewrite substring_skip; apply substring_append).
  destruct (decide (b = "")) as [-> | Hb].
  - destruct pre as [|c pre].
    + change ("" +:+ "" +:+ tail) with tail. by destruct tail.
    + exfalso. apply (Hfirst 0%nat); [cbn; lia|reflexivity].
  - destruct (String.index 0 b (pre +:+ b +:+ tail)) as [m|] eqn:Hidx.
    + f_equal.
      destruct (lt_eq_lt_dec m (String.length pre)) as [[Hlt | Heq] | Hgt]; [|exact Heq|].
      * exfalso. apply (Hfirst m Hlt). by apply String.index_correct1 in Hidx.
      * exfalso.
        apply (String.index_correct2 _ _ _ _ Hidx (String.length pre)); [lia|exact Hgt|exact Hocc].
    + exfalso.
      by apply (String.index_correct3 0 (String.length pre) _ _ Hidx Hb); [lia|].
Qed.

(** X28: a data path is cut after the first occurrence of the build id: of
    [<prefix><buildId><rest>.json] what remains is [rest], denormalized as a
    page path, with the locale stripped when the deployment has locales. *)
Theorem stripNextDataPath_data_url (pre rest : string) :
  (forall p, (p < String.length pre)%nat ->
     String.substring p (String.length (buildId this))
       (pre +:+ buildId this +:+ rest +:+ ".json") <> buildId this) ->
  stripNextDataPath this (pre +:+ buildId this +:+ rest +:+ ".json")
  = match i18n this with
    | Some i => normalizeLocalePath (denormalizePagePath rest) (Some (locales i))
    | None => denormalizePagePath rest
    end.
Proof.
  intros Hfirst. unfold stripNextDataPath.
  rewrite (index_first_occurrence _ _ _ Hfirst).
  rewrite !length_append.
  replace (String.length pre + (String.length (buildId this)
             + (String.length rest + String.length ".json"))
           - (String.length pre + String.length (buildId this)))%nat
    with (String.length (rest +:+ ".json")) by (rewrite length_append; lia).
  assert (Hcut : forall n a b t,
            String.substring (String.length a + String.length b) n (a +:+ b +:+ t)
            = String.substring 0 n t).
  { intros n a b t. induction a as [|c a IH]; [exact (substring_skip b t n)|].
    change (String c a +:+ b +:+ t) with (String c (a +:+ b +:+ t)). exact IH. }
  rewrite Hcut, substring_all, strip_suffix_append. reflexivity.
Qed.

End DataPathProperties.

(** * Properties of [run] and [pipe] *)

Section SendingProperties.
Context `{C : Collaborators} `{T : Transport}.
Variable this : Server.

(** X29: when the router matched the request, [run] does nothing more; when
    it did not, the request ends in [render404]: the error-page pipeline is
    entered for the pathname of the request with the status 404.  A
    [DecodeError] or [NormalizeError] of the router is answered with the
    status 400 and the [/_error] page; every other error of the router is
    thrown on, the response as the router left it. *)
Theorem run_outcomes req parsedUrl s o s2 :
  router_execute req parsedUrl (snd (modify (handleCompression req) s)) = (o, s2) ->
  match o with
  | Ret true => run this req parsedUrl s = (Ret tt, s2)
  | Ret false =>
      run this req parsedUrl s = render404 this (Some parsedUrl) true s2
      /\ trace (snd (run this req parsedUrl s))
         = trace s2 ++ [call_renderErrorPipe 404 parsedUrl]
  | Throw err =>
      if isDecodeOrNormalizeError err
      then
        exists m,
          res_statusCode (res m) = 400
          /\ fst (run this req parsedUrl s)
             = match fst (renderErrorPipe None "/_error" (Some ∅) m) with
               | Ret _ => Ret tt
               | Throw e => Throw e
               end
          /\ mut (snd (run this req parsedUrl s))
             = snd (renderErrorPipe None "/_error" (Some ∅) m)
          /\ trace (snd (run this req parsedUrl s))
             = trace s2 ++ [call_renderErrorPipe 400 "/_error"]
      else run this req parsedUrl s = (Throw err, s2)
  end.
Proof.
  intros Hrouter. unfold run.
  cbv beta delta [bind try_catch ret]. cbn beta iota zeta.
  rewrite modify_run in *. cbn [snd] in Hrouter. rewrite Hrouter. cbn beta iota.
  destruct o as [[|]|err]; [reflexivity| |].
  - split; [reflexivity|].
    unfold render404. cbv beta delta [bind]. cbn beta iota zeta.
    destruct (i18n this) as [i|].
    + rewrite modify_run. cbn beta iota. unfold set_statusCode. rewrite modify_run.
      cbn beta iota. rewrite renderError_run. reflexivity.
    + cbv beta delta [ret]. unfold set_statusCode. rewrite modify_run.
      cbn beta iota. rewrite renderError_run. reflexivity.
  - destruct (isDecodeOrNormalizeError err); [|reflexivity].
    unfold set_statusCode. rewrite modify_run. cbn beta iota. rewrite renderError_run.
    cbn beta iota zeta.
    match goal with
    | |- context [renderErrorPipe None "/_error" (Some ∅) ?m] => exists m
    end.
    split; [reflexivity|].
    destruct (renderErrorPipe _ _ _ _) as [[[]|e] m]; by cbn.
Qed.

(** X30: [pipe] sends at most what [fn] returned: with no payload, or with
    the response already sent by [fn], nothing is sent and the response is
    left as [fn] left it; an error of [fn] is the error of [pipe].  In
    development the payload is sent with the header
    [Cache-Control: no-store, must-revalidate] on the response, whatever [fn]
    had set for it.  A bot is the one kind of request whose context does not
    support dynamic HTML. *)
Theorem pipe_sends_at_most_once fn req pathname s o s1 :
  fn {| ctx_req := req; ctx_pathname := pathname;
        ctx_supportsDynamicHTML := negb (isBot (or_else (header req "user-agent") ""));
        ctx_params := None; ctx_err := None |} s = (o, s1) ->
  match o with
  | Throw e => pipe this fn req pathname s = (Throw e, s1)
  | Ret None => pipe this fn req pathname s = (Ret tt, s1)
  | Ret (Some payload) =>
      (res_sent (res (mut s1)) = true -> pipe this fn req pathname s = (Ret tt, s1))
      /\ (res_sent (res (mut s1)) = false ->
          dev this = true ->
          exists m,
            res_headers (res m) !! "Cache-Control" = Some ["no-store, must-revalidate"]
            /\ res_statusCode (res m) = res_statusCode (res (mut s1))
            /\ pipe this fn req pathname s
               = (fst (sendRenderResult req payload m),
                  {| mut := snd (sendRenderResult req payload m); trace := trace s1 |}))
  end.
Proof.
  intros Hfn. unfold pipe. cbv beta delta [bind gets ret]. cbn beta iota zeta.
  rewrite Hfn. destruct o as [[payload|]|e]; [|reflexivity|reflexivity].
  cbn beta iota. split.
  - intros Hsent. rewrite Hsent. reflexivity.
  - intros Hsent Hdev. rewrite Hsent, Hdev. cbn [negb when].
    unfold setHeader. rewrite modify_run. cbn beta iota. cbn [mut trace].
    match goal with
    | |- context [sendRenderResult req payload ?m] => exists m
    end.
    split; [cbn; apply lookup_insert_eq|]. split; [reflexivity|].
    by destruct (sendRenderResult _ _ _).
Qed.

End SendingProperties.

(** * The properties on the deployments *)





Lemma doRender_calls_one_renderer_witness :
  let C := Demo.collaborators (Demo.rendered rev_undefined) in
  let this := Demo.server fallback_null false false in
  let sc := Demo.blogScope (Demo.request "GET" []) false false false false in
  trace (snd (doRender this sc (Demo.start "/blog/hello" [])))
  = [call_doRender; call_renderHTML "/blog/[slug]"].
Proof.
  cbv zeta.
  destruct (doRender_calls_one_renderer
              (C := Demo.collaborators (Demo.rendered rev_undefined))
              (Demo.server fallback_null false false)
              (Demo.blogScope (Demo.request "GET" []) false false false false)
              (Demo.start "/blog/hello" [])) as [Hstate _].
  rewrite Hstate. reflexivity.
Defined.

Lemma doRender_classifies_witness :
  let C := Demo.collaborators Fixtures.renderedNotFound in
  let this := Demo.server fallback_null false false in
  let sc := Demo.blogScope (Demo.request "GET" []) false false false false in
  fst (doRender this sc (Demo.start "/blog/hello" []))
  = Ret (Some (mkEntry (rev_seconds 10) None)).
Proof.
  cbv zeta.
  destruct (doRender_classifies
              (C := Demo.collaborators Fixtures.renderedNotFound)
              (Demo.server fallback_null false false)
              (Demo.blogScope (Demo.request "GET" []) false false false false)
              (Demo.start "/blog/hello" []) Fixtures.renderedNotFound
              (mut (Demo.start "/blog/hello" []))) as [HnotFound _].
  - vm_compute. reflexivity.
  - rewrite HnotFound; reflexivity.
Defined.

Lemma resolved_url_drops_route_params_witness :
  let C := Fixtures.collaborators Fixtures.found (fun m => (Ret Demo.renderedNothing, m)) in
  let sc := Demo.blogScope (Demo.request "GET" []) false false false false in
  let m := mut (Demo.start "/blog/hello?slug=other&page=2" []) in
  origQueryOf sc m !! "slug" = None
  /\ origQueryOf sc m !! "page" = Some "2".
Proof.
  cbv zeta.
  destruct (resolved_url_drops_route_params
              (C := Fixtures.collaborators Fixtures.found
                      (fun m => (Ret Demo.renderedNothing, m)))
              (Demo.server fallback_null false false)
              (Demo.blogScope (Demo.request "GET" []) false false false false)
              (mut (Demo.start "/blog/hello?slug=other&page=2" []))
              {["slug" := "hello"]}) as (Hdrop & Hkeep & _).
  - reflexivity.
  - split.
    + apply Hdrop. exists "hello". vm_compute. reflexivity.
    + rewrite Hkeep; vm_compute; reflexivity.
Defined.



Lemma page_entry_payload_witness :
  let C := Demo.collaborators (Demo.rendered rev_undefined) in
  let this := Demo.server fallback_null false false in
  let sc := Demo.blogScope (Demo.request "GET" []) false false false false in
  let entry := mkEntry (rev_seconds 60) (Some (PAGE (fromStatic "<article/>") JsNull)) in
  exists payload s',
    serveCacheEntry this sc (Some entry) (Demo.start "/blog/hello" []) = (Ret (Some payload), s')
    /\ res_headers (res (mut s')) !! "x-nextjs-cache" = Some ["HIT"]
    /\ revalidateOptions payload
       = Some {| ro_private := false; ro_stateful := false; ro_revalidate := rev_seconds 60 |}.
Proof.
  cbv zeta.
  destruct (page_entry_payload
              (C := Demo.collaborators (Demo.rendered rev_undefined))
              (Demo.server fallback_null false false)
              (Demo.blogScope (Demo.request "GET" []) false false false false)
              (mkEntry (rev_seconds 60) (Some (PAGE (fromStatic "<article/>") JsNull)))
              (fromStatic "<article/>") JsNull (Demo.start "/blog/hello" []))
    as (payload & Hrun & _ & _ & Hoptions).
  - reflexivity.
  - exists payload. eexists. split; [exact Hrun|]. split; [vm_compute; reflexivity|].
    rewrite Hoptions; [reflexivity|discriminate|left; reflexivity].
Defined.


Lemma handleRedirect_destination_witness :
  let C := Demo.collaborators (Demo.rendered rev_undefined) in
  let this := Fixtures.server false false "/docs" None None in
  let run := handleRedirect this Fixtures.redirectProps (Demo.start "/blog/hello" []) in
  res_headers (res (mut (snd run))) !! "Location" = Some ["/docs/login"]
  /\ res_statusCode (res (mut (snd run))) = 307
  /\ res_body (res (mut (snd run))) = Some "/docs/login".
Proof.
  cbv zeta.
  destruct (handleRedirect_destination
              (C := Demo.collaborators (Demo.rendered rev_undefined))
              (Fixtures.server false false "/docs" None None)
              Fixtures.redirectProps "/login" (Demo.start "/blog/hello" []))
    as (_ & _ & Hprefixed).
  - reflexivity.
  - rewrite Hprefixed.
    + vm_compute. repeat split; reflexivity.
    + reflexivity.
    + reflexivity.
    + vm_compute. discriminate.
Defined.

Lemma renderPageComponent_errors_witness :
  let C := Demo.collaborators (Demo.rendered rev_undefined) in
  let this := Demo.server fallback_false false false in
  let ctx :=
    with_params {["slug" := "hello"]}
      (with_pathname "/blog/[slug]" (Demo.context (Demo.request "GET" []) "/blog/hello")) in
  fst (renderPageComponent this ctx false (Demo.start "/blog/hello" [])) = Ret None
  /\ fst (renderPageComponent this ctx true (Demo.start "/blog/hello" []))
     = Throw NoFallbackError.
Proof.
  cbv zeta. split.
  - destruct (renderPageComponent_errors
                (C := Demo.collaborators (Demo.rendered rev_undefined))
                (Demo.server fallback_false false false)
                (with_params {["slug" := "hello"]}
                   (with_pathname "/blog/[slug]"
                      (Demo.context (Demo.request "GET" []) "/blog/hello")))
                false (Demo.start "/blog/hello" [])) as [Herror _].
    erewrite Herror; [|vm_compute; reflexivity|vm_compute; reflexivity]. reflexivity.
  - destruct (renderPageComponent_errors
                (C := Demo.collaborators (Demo.rendered rev_undefined))
                (Demo.server fallback_false false false)
                (with_params {["slug" := "hello"]}
                   (with_pathname "/blog/[slug]"
                      (Demo.context (Demo.request "GET" []) "/blog/hello")))
                true (Demo.start "/blog/hello" [])) as [Herror _].
    erewrite Herror; [|vm_compute; reflexivity|vm_compute; reflexivity]. reflexivity.
Defined.


Lemma renderToResponse_contains_errors_witness :
  let C := Demo.collaborators (Demo.rendered rev_undefined) in
  let this := Demo.server fallback_false false false in
  let ctx := Demo.context (Demo.request "GET" []) "/blog/hello" in
  let s := Demo.start "/blog/hello" [("_nextBubbleNoFallback", "1")] in
  fst (renderToResponse this ctx s) = Throw NoFallbackError
  /\ (isMissingStaticPage NoFallbackError = true
      \/ (NoFallbackError = NoFallbackError
          /\ truthy (ctx_query (mut s) !! "_nextBubbleNoFallback") = true)).
Proof.
  cbv zeta. split; [vm_compute; reflexivity|].
  eapply (renderToResponse_contains_errors
            (C := Demo.collaborators (Demo.rendered rev_undefined))
            (Demo.server fallback_false false false)
            (Demo.context (Demo.request "GET" []) "/blog/hello")
            (Demo.start "/blog/hello" [("_nextBubbleNoFallback", "1")])).
  - reflexivity.
  - left. reflexivity.
  - reflexivity.
  - vm_compute. reflexivity.
Defined.

Lemma renderErrorToResponse_last_resort_witness :
  let C :=
    Fixtures.collaborators (fun _ _ _ => Throw (Error "cannot load"))
      (fun m => (Ret Demo.renderedNothing, m)) in
  let this := Demo.server fallback_null false false in
  let ctx := Demo.context (Demo.request "GET" []) "/blog/hello" in
  exists s',
    renderErrorToResponse this ctx None (Demo.start "/blog/hello" [])
    = (Ret (Some {| type := html_type; body := fromStatic "Internal Server Error";
                    revalidateOptions := None |}), s')
    /\ res_statusCode (res (mut s')) = 500
    /\ last (trace s') = Some (call_logError (Error "cannot load")).
Proof.
  cbv zeta.
  destruct (renderErrorToResponse_last_resort
              (C := Fixtures.collaborators (fun _ _ _ => Throw (Error "cannot load"))
                      (fun m => (Ret Demo.renderedNothing, m)))
              (Demo.server fallback_null false false)
              (Demo.context (Demo.request "GET" []) "/blog/hello")
              None (Demo.start "/blog/hello" [])) as [_ Hlast].
  - reflexivity.
  - apply (Hlast (Error "cannot load")); [intros; reflexivity|reflexivity].
Defined.



Lemma dynamic_routes_first_result_wins_witness :
  let C := Demo.collaborators (Demo.rendered rev_undefined) in
  let this := Demo.server fallback_null false false in
  let ctx := Demo.context (Demo.request "GET" []) "/blog/hello" in
  let candidate := with_params {["slug" := "hello"]} (with_pathname "/blog/[slug]" ctx) in
  tryDynamicRoutes this ctx false
    ([Fixtures.docsRoute] ++ Demo.blogRoute :: [Fixtures.docsRoute])
    (Demo.start "/blog/hello" [])
  = renderPageComponent this candidate false (Demo.start "/blog/hello" []).
Proof.
  cbv zeta.
  edestruct (dynamic_routes_first_result_wins
               (C := Demo.collaborators (Demo.rendered rev_undefined))
               (Demo.server fallback_null false false)
               (Demo.context (Demo.request "GET" []) "/blog/hello")
               false [Fixtures.docsRoute] Demo.blogRoute [Fixtures.docsRoute]
               {["slug" := "hello"]} (Demo.start "/blog/hello" []))
    as (Hfirst & _ & _).
  - intros r Hr. apply list_elem_of_singleton in Hr. rewrite Hr. reflexivity.
  - vm_compute. reflexivity.
  - erewrite Hfirst; [|vm_compute; reflexivity]. vm_compute. reflexivity.
Defined.

Lemma exhausted_data_request_with_middleware_witness :
  let C := Demo.collaborators (Demo.rendered rev_undefined) in
  let this := Fixtures.server false true "" None None in
  let ctx := Demo.context (Demo.request "GET" [("x-nextjs-data", "1")]) "/missing" in
  exists s',
    renderToResponse this ctx (Demo.start "/missing" []) = (Ret None, s')
    /\ res_statusCode (res (mut s')) = 200
    /\ res_body (res (mut s')) = Some "{}"
    /\ res_headers (res (mut s')) !! "x-nextjs-matched-path" = Some ["/missing"].
Proof.
  cbv zeta.
  edestruct (exhausted_data_request_with_middleware
               (C := Demo.collaborators (Demo.rendered rev_undefined))
               (Fixtures.server false true "" None None)
               (Demo.context (Demo.request "GET" [("x-nextjs-data", "1")]) "/missing")
               (Demo.start "/missing" []))
    as (s' & Hrun & Hstatus & Hbody & _ & _ & Hpath & _).
  - reflexivity.
  - vm_compute. reflexivity.
  - reflexivity.
  - reflexivity.
  - right. left. reflexivity.
  - exists s'. split; [exact Hrun|]. split; [exact Hstatus|]. split; [exact Hbody|].
    rewrite Hpath. reflexivity.
Defined.

Lemma static_page_is_served_as_is_witness :
  let C := Demo.collaborators (Demo.rendered rev_undefined) in
  let this := Demo.server fallback_null false false in
  let ctx := Demo.context (Demo.request "GET" []) "/about" in
  exists s',
    renderToResponseWithComponents this ctx
      {| components := Demo.aboutPage; found_query := ∅ |} (Demo.start "/about" [])
    = (Ret (Some {| type := html_type; body := fromStatic "<main>about</main>";
                    revalidateOptions := None |}), s')
    /\ trace s' = []
    /\ res_sent (res (mut s')) = false.
Proof.
  cbv zeta.
  apply (static_page_is_served_as_is
           (C := Demo.collaborators (Demo.rendered rev_undefined))
           (Demo.server fallback_null false false)
           (Demo.context (Demo.request "GET" []) "/about")
           {| components := Demo.aboutPage; found_query := ∅ |} "<main>about</main>"
           (Demo.start "/about" [])).
  - reflexivity.
  - reflexivity.
Defined.

Lemma cache_bypass_witness :
  let C := Demo.collaborators (Demo.rendered rev_undefined) in
  let this := Demo.server fallback_null false false in
  let ctx :=
    with_params {["slug" := "hello"]}
      (with_pathname "/blog/[slug]" (Demo.context (Demo.request "GET" []) "/blog/hello")) in
  exists sc,
    scopeOf this ctx Demo.blogPage false true None None None "/blog/hello" = Ret sc
    /\ isSSG sc = true
    /\ supportsDynamicHTML sc = false
    /\ ssgCacheKey sc = None.
Proof.
  cbv zeta.
  edestruct (cache_bypass
               (C := Demo.collaborators (Demo.rendered rev_undefined))
               (Demo.server fallback_null false false)
               (with_params {["slug" := "hello"]}
                  (with_pathname "/blog/[slug]"
                     (Demo.context (Demo.request "GET" []) "/blog/hello")))
               Demo.blogPage false true None None None "/blog/hello")
    as (_ & Hdynamic & Hflight).
  - vm_compute. reflexivity.
  - eexists. split; [vm_compute; reflexivity|]. split; [reflexivity|].
    split; [apply Hdynamic; reflexivity|apply Hflight; reflexivity].
Defined.


Lemma normalized_key_of_plain_segments_witness :
  let C := Demo.collaborators (Demo.rendered rev_undefined) in
  normalizeCacheKey "/blog/[slug]" (Some "/blog/hello") = Ret (Some "/blog/hello")
  /\ normalizeCacheKey "/" (Some "/index") = Ret (Some "/").
Proof.
  cbv zeta. split.
  - destruct (normalized_key_of_plain_segments
                (C := Demo.collaborators (Demo.rendered rev_undefined))
                "/blog/[slug]" "/blog/hello") as [Hkey _].
    + discriminate.
    + change (split_on "/"%char "/blog/hello") with [""; "blog"; "hello"].
      intros seg Hseg.
      repeat (apply elem_of_cons in Hseg as [-> | Hseg]; [split; reflexivity|]).
      apply elem_of_nil in Hseg. destruct Hseg.
    + rewrite Hkey. reflexivity.
  - destruct (normalized_key_of_plain_segments
                (C := Demo.collaborators (Demo.rendered rev_undefined))
                "/" "/index") as [_ Hroot].
    + discriminate.
    + change (split_on "/"%char "/index") with [""; "index"].
      intros seg Hseg.
      repeat (apply elem_of_cons in Hseg as [-> | Hseg]; [split; reflexivity|]).
      apply elem_of_nil in Hseg. destruct Hseg.
    + apply Hroot; reflexivity.
Defined.

Lemma config_pipe_composes_witness :
  let double (n : Z) : outcome Z := Ret (2 * n) in
  let refuse (n : Z) : outcome Z := Throw (Error "invalid configuration") in
  WebpackConfigUtils.pipe ([double; double] ++ [double]) 1 = Ret 8
  /\ WebpackConfigUtils.pipe ([double; double] ++ refuse :: [double]) 1
     = Throw (Error "invalid configuration").
Proof.
  cbv zeta.
  destruct (config_pipe_composes
              [fun n : Z => Ret (2 * n); fun n : Z => Ret (2 * n)]
              [fun n : Z => Ret (2 * n)] 1) as (Hcompose & _ & _ & Hstop).
  split.
  - rewrite Hcompose. reflexivity.
  - apply (Hstop (fun _ => Throw (Error "invalid configuration")) 4); reflexivity.
Defined.

Lemma getAppPathRoutes_groups_witness :
  getAppPathRoutes (R := Fixtures.routeCompiler)
    ["/dashboard/page"; "/page"; "/dashboard"; "/settings/page"] !! "/dashboard"
  = Some ["/dashboard/page"; "/dashboard"]
  /\ getAppPathRoutes (R := Fixtures.routeCompiler)
       ["/dashboard/page"; "/page"; "/dashboard"; "/settings/page"] !! "/"
     = Some ["/page"].
Proof.
  split.
  - destruct (getAppPathRoutes_groups (R := Fixtures.routeCompiler)
                ["/dashboard/page"; "/page"; "/dashboard"; "/settings/page"] "/dashboard")
      as [Hgroup _].
    rewrite Hgroup. vm_compute. reflexivity.
  - destruct (getAppPathRoutes_groups (R := Fixtures.routeCompiler)
                ["/dashboard/page"; "/page"; "/dashboard"; "/settings/page"] "/")
      as [Hgroup _].
    rewrite Hgroup. vm_compute. reflexivity.
Defined.

Lemma getDynamicRoutes_table_witness :
  let C := Demo.collaborators (Demo.rendered rev_undefined) in
  let this := Demo.server fallback_null false false in
  exists routes,
    getDynamicRoutes (R := Fixtures.routeCompiler) this
      ["/shop/[id]"; "/about"] ["/blog/[slug]"; "/about"; "/shop/[id]"] = Ret routes
    /\ page <$> routes = ["/shop/[id]"; "/blog/[slug]"].
Proof.
  cbv zeta.
  destruct (getDynamicRoutes_table
              (C := Demo.collaborators (Demo.rendered rev_undefined))
              (R := Fixtures.routeCompiler)
              (Demo.server fallback_null false false)
              ["/shop/[id]"; "/about"] ["/blog/[slug]"; "/about"; "/shop/[id]"]
              ["/shop/[id]"; "/about"; "/blog/[slug]"; "/about"; "/shop/[id]"])
    as (routes & Hroutes & _).
  - vm_compute. reflexivity.
  - exists routes. split; [exact Hroutes|].
    vm_compute in Hroutes. injection Hroutes as <-. reflexivity.
Defined.

Lemma stripNextDataPath_data_url_witness :
  let C := Demo.collaborators (Demo.rendered rev_undefined) in
  stripNextDataPath (Demo.server fallback_null false false)
    "/_next/data/BUILD/blog/hello.json" = "/blog/hello".
Proof.
  cbv zeta.
  apply (stripNextDataPath_data_url
           (C := Demo.collaborators (Demo.rendered rev_undefined))
           (Demo.server fallback_null false false) "/_next/data/" "/blog/hello").
  intros p Hp.
  do 12 (destruct p as [|p]; [vm_compute; discriminate|]).
  cbn in Hp. lia.
Defined.

Lemma run_outcomes_witness :
  let C := Demo.collaborators (Demo.rendered rev_undefined) in
  let T := Fixtures.transport in
  let this := Demo.server fallback_null false false in
  let run := run this (Demo.request "GET" []) "/missing" (Demo.start "/missing" []) in
  run = render404 this (Some "/missing") true (Demo.start "/missing" [])
  /\ trace (snd run) = [call_renderErrorPipe 404 "/missing"].
Proof.
  cbv zeta.
  apply (run_outcomes
           (C := Demo.collaborators (Demo.rendered rev_undefined))
           (T := Fixtures.transport)
           (Demo.server fallback_null false false)
           (Demo.request "GET" []) "/missing" (Demo.start "/missing" [])
           (Ret false) (Demo.start "/missing" [])).
  vm_compute. reflexivity.
Defined.

Lemma pipe_sends_at_most_once_witness :
  let C := Demo.collaborators (Demo.rendered rev_undefined) in
  let T := Fixtures.transport in
  let this := Demo.server fallback_null false true in
  let ctx := Demo.context (Demo.request "GET" []) "/about" in
  exists s',
    pipe this (renderToResponse this) (Demo.request "GET" []) "/about" (Demo.start "/about" [])
    = (Ret tt, s')
    /\ res_headers (res (mut s')) !! "Cache-Control" = Some ["no-store, must-revalidate"]
    /\ res_body (res (mut s')) = Some "<main>about</main>".
Proof.
  cbv zeta.
  edestruct (pipe_sends_at_most_once
               (C := Demo.collaborators (Demo.rendered rev_undefined))
               (T := Fixtures.transport)
               (Demo.server fallback_null false true)
               (renderToResponse (C := Demo.collaborators (Demo.rendered rev_undefined))
                  (Demo.server fallback_null false true))
               (Demo.request "GET" []) "/about" (Demo.start "/about" [])
               (Ret (Some {| type := html_type; body := fromStatic "<main>about</main>";
                             revalidateOptions := None |})))
    as [_ Hsend].
  - vm_compute. reflexivity.
  - destruct Hsend as (m & Hheader & _ & Hrun); [reflexivity|reflexivity|].
    eexists. split; [exact Hrun|]. split; [exact Hheader|reflexivity].
Defined.
